(** * Real-time voice activity detection: the browser wrapper

    A shallow embedding of [packages/web/src/real-time-vad.ts]: the two
    classes [MicVAD] and [AudioNodeVAD], their option objects, and the
    dispatch of frame-processor results to the user's callbacks.

    The file imports [./_common], [./model-fetcher] and [./asset-path];
    what it uses of them is collected in the class [Imports], so every
    statement about the wrapper holds for any implementation of them.
    The frame processor described by the specification is given afterwards
    as one instance (module [Segmenter]). *)

From Stdlib Require Import ZArith List String Bool Lia.
From Stdlib.Strings Require Import Byte.
From Stdlib Require Import SpecFloat.
Import ListNotations.
Local Open Scope string_scope.
Local Open Scope list_scope.
Local Open Scope Z_scope.

Set Implicit Arguments.

(** ** Numbers

    A JavaScript number, and an element of a [Float32Array], is an IEEE 754
    value.  [spec_float] keeps sign, mantissa and exponent; [SFcompare] is
    the IEEE comparison (both zeros are equal, NaN is unordered).  Samples
    are only ever compared with zero, so the width of their mantissa plays
    no role. *)

Definition number := spec_float.

Definition zero : number := S754_zero false.

(** [a === b] on two numbers. *)
Definition strict_eq (a b : number) : bool := SFeqb a b.

Definition Float32Array := list number.
Definition ArrayBuffer := list byte.

(** *** Reading a [Float32Array] out of an [ArrayBuffer]

    [new Float32Array(buffer)] is a view of the buffer's bytes, four per
    element, in the byte order of the platform (little endian here); it
    throws a [RangeError] when the byte length is not a multiple of 4. *)

Definition float32_of_bits (w : Z) : number :=
  let s := Z.testbit w 31 in
  let e := (w / 2 ^ 23) mod 256 in
  let m := w mod 2 ^ 23 in
  if e =? 0 then
    match m with
    | Zpos p => S754_finite s p (-149)
    | _ => S754_zero s
    end
  else if e =? 255 then
    (if m =? 0 then S754_infinity s else S754_nan)
  else
    match m + 2 ^ 23 with
    | Zpos p => S754_finite s p (e - 150)
    | _ => S754_nan
    end.

Definition word_of_bytes (b0 b1 b2 b3 : byte) : Z :=
  Z.of_N (Byte.to_N b0) + 2 ^ 8 * Z.of_N (Byte.to_N b1)
  + 2 ^ 16 * Z.of_N (Byte.to_N b2) + 2 ^ 24 * Z.of_N (Byte.to_N b3).

Fixpoint words_of_bytes (l : list byte) : list Z :=
  match l with
  | b0 :: b1 :: b2 :: b3 :: rest => word_of_bytes b0 b1 b2 b3 :: words_of_bytes rest
  | _ => []
  end.

(** ** Errors and results *)

Inductive Error :=
| TypeError (what : string)
| RangeError (what : string)
| ConfigError (field : string)
| ModelStateError
| Rejected (reason : string).

Inductive Res (A : Type) :=
| Ok (a : A)
| Err (e : Error).

Arguments Ok {A} a.
Arguments Err {A} e.

Definition returns {A} (r : Res A) : bool :=
  match r with
  | Ok _ => true
  | Err _ => false
  end.

Definition new_Float32Array (buffer : ArrayBuffer) : Res Float32Array :=
  if (Z.of_nat (List.length buffer) mod 4 =? 0)
  then Ok (map float32_of_bits (words_of_bytes buffer))
  else Err (RangeError "byte length of Float32Array should be a multiple of 4").

(** ** What [./_common] exports as data *)

(** The members of the [Message] enumeration the wrapper refers to. *)
Inductive Message :=
| AudioFrame
| SpeechStart
| VADMisfire
| SpeechEnd
| SpeechSegment.

(** Modelled from the spec: the type [SpeechProbabilities] of the missing
    [./_common], a pair of floats of which only [isSpeech] is compared with
    thresholds.  The wrapper passes it on without looking inside. *)
Record SpeechProbabilities := {
  notSpeech : number;
  isSpeech : number
}.

(** The frame object built by [processFrame]. *)
Record Frame := {
  samples : Float32Array;
  isEmpty : bool
}.

(** What [FrameProcessor.process] resolves to; each of the three fields may
    be [undefined]. *)
Record ProcessResult := {
  probs : option SpeechProbabilities;
  msg : option Message;
  audio : option Float32Array
}.

(** The seven options handed to [new FrameProcessor] by [init]. *)
Record FrameProcessorOptions := {
  frameSamples : Z;
  positiveSpeechThreshold : number;
  negativeSpeechThreshold : number;
  redemptionFrames : Z;
  preSpeechPadFrames : Z;
  minSpeechFrames : Z;
  maxSpeechFrames : Z
}.

(** ** Browser objects, as opaque handles *)

Inductive AudioContext := AudioContextId (n : nat).
Inductive MediaStream := MediaStreamId (n : nat).
Inductive AudioNode := AudioNodeId (n : nat).
Inductive ModelFetcher := ModelFetcherId (n : nat).

(** [AudioConstraints]: the track constraints a caller may add. *)
Definition AudioConstraints := list (string * string).

(** The argument of [getUserMedia]: [{ audio: {...additional, channelCount,
    echoCancellation, autoGainControl, noiseSuppression} }]. *)
Record MediaStreamConstraints := {
  additional : AudioConstraints;
  channelCount : Z;
  echoCancellation : bool;
  autoGainControl : bool;
  noiseSuppression : bool
}.

(** ** Callbacks

    A callback is a function value: one of the five defaults of
    [defaultRealTimeVADOptions] or a function of the caller.  The caller's
    functions are opaque; they are taken to return normally and not to call
    back into the wrapper. *)

Inductive Callback :=
| DefaultOnFrameProcessed
| DefaultOnVADMisfire
| DefaultOnSpeechStart
| DefaultOnSpeechEnd
| DefaultOnSpeechSegment
| UserCallback (id : nat).

(** One call of a callback slot of [RealTimeVADCallbacks], with its
    arguments. *)
Inductive CallbackCall :=
| OnFrameProcessed (probabilities : SpeechProbabilities)
| OnVADMisfire
| OnSpeechStart
| OnSpeechEnd (audio : option Float32Array)
| OnSpeechSegment (audio : option Float32Array).

Record RealTimeVADCallbacks := {
  onFrameProcessed : Callback;
  onVADMisfire : Callback;
  onSpeechStart : Callback;
  onSpeechEnd : Callback;
  onSpeechSegment : Callback
}.

(** [RealTimeVADOptions]: the frame-processor options, the callbacks, and
    the fields of the wrapper itself.  An absent optional field and one set
    to [undefined] read the same and are both [None]. *)
Record RealTimeVADOptions := {
  frameProcessorOptions :> FrameProcessorOptions;
  callbacks :> RealTimeVADCallbacks;
  additionalAudioConstraints : option AudioConstraints;
  workletURL : string;
  stream : option MediaStream;
  modelFetcher : option ModelFetcher
}.

(** [Partial<RealTimeVADOptions>]: every field may be left out. *)
Module Partial.
Record t := {
  frameSamples : option Z;
  positiveSpeechThreshold : option number;
  negativeSpeechThreshold : option number;
  redemptionFrames : option Z;
  preSpeechPadFrames : option Z;
  minSpeechFrames : option Z;
  maxSpeechFrames : option Z;
  onFrameProcessed : option Callback;
  onVADMisfire : option Callback;
  onSpeechStart : option Callback;
  onSpeechEnd : option Callback;
  onSpeechSegment : option Callback;
  additionalAudioConstraints : option (option AudioConstraints);
  workletURL : option string;
  stream : option (option MediaStream);
  modelFetcher : option (option ModelFetcher)
}.

(** [{}], the default argument of both [new] methods. *)
Definition empty : t :=
  Build_t None None None None None None None None
          None None None None None None None None.
End Partial.

(** ** Effects

    What a call does to the outside world, in the order it does it. *)
Inductive Effect :=
| EInvoke (f : Callback) (call : CallbackCall)
| ELogDebug (text : string)
| EGetUserMedia (constraints : MediaStreamConstraints)
| ENewAudioContext
| ENewMediaStreamAudioSourceNode (ctx : AudioContext) (mediaStream : MediaStream)
| EAddModule (ctx : AudioContext) (url : string)
| ENewAudioWorkletNode (ctx : AudioContext) (name : string) (frameSamples : Z)
| ESileroNew (fetcher : ModelFetcher)
| EConnect (source destination : AudioNode)
| ESetOnMessage (node : AudioNode).

(** ** A monad for methods

    A method runs on its object ([this], of type [S]), may change it, emits
    effects, and returns or throws.  What was done before a throw stays
    done. *)
Record Outcome (S A : Type) := mkOutcome {
  final : S;
  emitted : list Effect;
  result : Res A
}.

Definition M (S A : Type) := S -> Outcome S A.

Definition ret {S A} (a : A) : M S A :=
  fun s => mkOutcome s [] (Ok a).

Definition throw {S A} (e : Error) : M S A :=
  fun s => mkOutcome s [] (Err e).

Definition bind {S A B} (m : M S A) (k : A -> M S B) : M S B :=
  fun s =>
    let o := m s in
    match result o with
    | Ok a =>
        let o' := k a (final o) in
        mkOutcome (final o') (emitted o ++ emitted o') (result o')
    | Err e => mkOutcome (final o) (emitted o) (Err e)
    end.

Definition get {S} : M S S :=
  fun s => mkOutcome s [] (Ok s).

Definition modify {S} (f : S -> S) : M S unit :=
  fun s => mkOutcome (f s) [] (Ok tt).

Definition emit {S} (es : list Effect) : M S unit :=
  fun s => mkOutcome s es (Ok tt).

(** The outcome of something the environment does: the effect is recorded,
    then the call returns or throws. *)
Definition external {S A} (e : Effect) (r : Res A) : M S A :=
  fun s => mkOutcome s [e] r.

(** A static method has no [this]. *)
Definition IO (A : Type) := M unit A.

Definition liftIO {S A} (io : IO A) : M S A :=
  fun s => let o := io tt in mkOutcome s (emitted o) (result o).

(** [await obj.method(); return obj]: run a method on a fresh object and
    hand the object back. *)
Definition on_new {T A} (obj : T) (m : M T A) : IO T :=
  fun _ =>
    let o := m obj in
    mkOutcome tt (emitted o)
      match result o with
      | Ok _ => Ok (final o)
      | Err e => Err e
      end.

(** [this.field.method()]: run a method on the object a field refers to;
    a [TypeError] when the field is still [undefined]. *)
Definition on_field {S T A} (name : string)
    (read : S -> option T) (write : T -> S -> S) (m : M T A) : M S A :=
  fun s =>
    match read s with
    | None => mkOutcome s [] (Err (TypeError name))
    | Some t =>
        let o := m t in
        mkOutcome (write (final o) s) (emitted o) (result o)
    end.

Declare Scope method_scope.
Delimit Scope method_scope with method.
Notation "x <- m ;; k" := (bind m (fun x => k))
  (at level 100, m at next level, right associativity) : method_scope.
Notation "m ;; k" := (bind m (fun _ => k))
  (at level 100, right associativity) : method_scope.
Local Open Scope method_scope.

Definition liftRes {S A} (r : Res A) : M S A :=
  fun s => mkOutcome s [] r.

(** [array.some(p)] *)
Definition some {A} (array : list A) (p : A -> bool) : bool :=
  existsb p array.

(** ** The imports of the file

    [./_common] ([validateOptions], [Silero], [FrameProcessor],
    [defaultFrameProcessorOptions]), [./model-fetcher] and [./asset-path]
    are not part of this file.  [validateOptions] returns or throws;
    [process] resolves or rejects and may change the frame processor either
    way; [pause] and [resume] change the frame processor. *)
Class Imports := {
  Silero : Type;
  FrameProcessor : Type;
  validateOptions : FrameProcessorOptions -> Res unit;
  Silero_new : ModelFetcher -> Res Silero;
  FrameProcessor_new : Silero -> FrameProcessorOptions -> FrameProcessor;
  FrameProcessor_process :
    Frame -> FrameProcessor -> FrameProcessor * Res ProcessResult;
  FrameProcessor_pause : FrameProcessor -> FrameProcessor;
  FrameProcessor_resume : FrameProcessor -> FrameProcessor;
  defaultFrameProcessorOptions : FrameProcessorOptions;
  imported_modelFetcher : ModelFetcher;
  assetPath : string -> string
}.

(** The web platform: what each call into it answers. *)
Record Browser := {
  getUserMedia : MediaStreamConstraints -> Res MediaStream;
  new_AudioContext : Res AudioContext;
  new_MediaStreamAudioSourceNode : AudioContext -> MediaStream -> Res AudioNode;
  audioWorklet_addModule : AudioContext -> string -> Res unit;
  new_AudioWorkletNode : AudioContext -> string -> Z -> Res AudioNode;
  connect : AudioNode -> AudioNode -> Res unit
}.

(** What arrives on the worklet node's port.  [ev.data] may be absent; its
    [message] field is any value: [undefined], a member of [Message], or
    something else. *)
Inductive Tag :=
| TagUndefined
| TagMessage (m : Message)
| TagOther (v : string).

Module WorkletMessage.
Record t := {
  message : Tag;
  data : ArrayBuffer
}.
End WorkletMessage.

Module MessageEvent.
Record t := {
  data : option WorkletMessage.t
}.
End MessageEvent.

(** ** Default options and their override *)

(** The bodies of the default callbacks: all but [onFrameProcessed] write
    one debug line.  A caller's function is opaque. *)
Definition callback_body (f : Callback) : list Effect :=
  match f with
  | DefaultOnFrameProcessed => []
  | DefaultOnVADMisfire => [ELogDebug "VAD misfire"]
  | DefaultOnSpeechStart => [ELogDebug "Detected speech start"]
  | DefaultOnSpeechEnd => [ELogDebug "Detected speech end"]
  | DefaultOnSpeechSegment => [ELogDebug "Detected speech segment"]
  | UserCallback _ => []
  end.

(** Calling the function held by a callback slot. *)
Definition invoke {S} (f : Callback) (call : CallbackCall) : M S unit :=
  emit (EInvoke f call :: callback_body f).

Section Defaults.
Context `{Imports}.

Definition _getWorkletURL : string :=
  assetPath "vad.worklet.bundle.min.js".

Definition defaultRealTimeVADOptions : RealTimeVADOptions := {|
  frameProcessorOptions := defaultFrameProcessorOptions;
  callbacks := {|
    onFrameProcessed := DefaultOnFrameProcessed;
    onVADMisfire := DefaultOnVADMisfire;
    onSpeechStart := DefaultOnSpeechStart;
    onSpeechEnd := DefaultOnSpeechEnd;
    onSpeechSegment := DefaultOnSpeechSegment
  |};
  additionalAudioConstraints := None;
  workletURL := _getWorkletURL;
  stream := None;
  modelFetcher := None
|}.
End Defaults.

(** One property of [{ ...defaults, ...options }]: the caller's value when
    the caller's object has the key, the default otherwise. *)
Definition override {A} (default : A) (given : option A) : A :=
  match given with
  | Some a => a
  | None => default
  end.

(** [{ ...defaults, ...options }] *)
Definition spread (defaults : RealTimeVADOptions) (options : Partial.t)
  : RealTimeVADOptions := {|
  frameProcessorOptions := {|
    frameSamples :=
      override (frameSamples defaults) (Partial.frameSamples options);
    positiveSpeechThreshold :=
      override (positiveSpeechThreshold defaults)
               (Partial.positiveSpeechThreshold options);
    negativeSpeechThreshold :=
      override (negativeSpeechThreshold defaults)
               (Partial.negativeSpeechThreshold options);
    redemptionFrames :=
      override (redemptionFrames defaults) (Partial.redemptionFrames options);
    preSpeechPadFrames :=
      override (preSpeechPadFrames defaults)
               (Partial.preSpeechPadFrames options);
    minSpeechFrames :=
      override (minSpeechFrames defaults) (Partial.minSpeechFrames options);
    maxSpeechFrames :=
      override (maxSpeechFrames defaults) (Partial.maxSpeechFrames options)
  |};
  callbacks := {|
    onFrameProcessed :=
      override (onFrameProcessed defaults) (Partial.onFrameProcessed options);
    onVADMisfire :=
      override (onVADMisfire defaults) (Partial.onVADMisfire options);
    onSpeechStart :=
      override (onSpeechStart defaults) (Partial.onSpeechStart options);
    onSpeechEnd :=
      override (onSpeechEnd defaults) (Partial.onSpeechEnd options);
    onSpeechSegment :=
      override (onSpeechSegment defaults) (Partial.onSpeechSegment options)
  |};
  additionalAudioConstraints :=
    override (additionalAudioConstraints defaults)
             (Partial.additionalAudioConstraints options);
  workletURL := override (workletURL defaults) (Partial.workletURL options);
  stream := override (stream defaults) (Partial.stream options);
  modelFetcher :=
    override (modelFetcher defaults) (Partial.modelFetcher options)
|}.

(** A full options object passed where a partial one is expected.  The two
    optional fields are keys of the object only when they were given. *)
Definition as_partial (o : RealTimeVADOptions) : Partial.t := {|
  Partial.frameSamples := Some (frameSamples o);
  Partial.positiveSpeechThreshold := Some (positiveSpeechThreshold o);
  Partial.negativeSpeechThreshold := Some (negativeSpeechThreshold o);
  Partial.redemptionFrames := Some (redemptionFrames o);
  Partial.preSpeechPadFrames := Some (preSpeechPadFrames o);
  Partial.minSpeechFrames := Some (minSpeechFrames o);
  Partial.maxSpeechFrames := Some (maxSpeechFrames o);
  Partial.onFrameProcessed := Some (onFrameProcessed o);
  Partial.onVADMisfire := Some (onVADMisfire o);
  Partial.onSpeechStart := Some (onSpeechStart o);
  Partial.onSpeechEnd := Some (onSpeechEnd o);
  Partial.onSpeechSegment := Some (onSpeechSegment o);
  Partial.additionalAudioConstraints :=
    option_map Some (additionalAudioConstraints o);
  Partial.workletURL := Some (workletURL o);
  Partial.stream := Some (stream o);
  Partial.modelFetcher := option_map Some (modelFetcher o)
|}.

(** ** class AudioNodeVAD *)
Module AudioNodeVAD.
Section Class.
Context `{Imports} (browser : Browser).

Record t := {
  ctx : AudioContext;
  options : RealTimeVADOptions;
  frameProcessor : option FrameProcessor;
  entryNode : option AudioNode
}.

Definition set_frameProcessor (fp : FrameProcessor) (this : t) : t :=
  {| ctx := ctx this; options := options this;
     frameProcessor := Some fp; entryNode := entryNode this |}.

Definition set_entryNode (node : AudioNode) (this : t) : t :=
  {| ctx := ctx this; options := options this;
     frameProcessor := frameProcessor this; entryNode := Some node |}.

(** [this.frameProcessor.method()] *)
Definition on_frameProcessor {A} (m : M FrameProcessor A) : M t A :=
  on_field "frameProcessor" frameProcessor set_frameProcessor m.

Definition constructor (ctx : AudioContext) (options : RealTimeVADOptions)
  : Res t :=
  match validateOptions options with
  | Ok _ => Ok {| ctx := ctx; options := options;
                  frameProcessor := None; entryNode := None |}
  | Err e => Err e
  end.

Definition pause : M t unit :=
  on_frameProcessor (modify FrameProcessor_pause).

Definition start : M t unit :=
  on_frameProcessor (modify FrameProcessor_resume).

Definition receive (node : AudioNode) : M t unit :=
  this <- get;;
  match entryNode this with
  | Some entry => external (EConnect node entry) (connect browser node entry)
  | None => throw (TypeError "entryNode")
  end.

(** The frame object of the first line of [processFrame]. *)
Definition frame_of (samples : Float32Array) : Frame :=
  {| samples := samples;
     isEmpty := negb (some samples (fun s => strict_eq s zero)) |}.

Definition processFrame (samples : Float32Array) : M t unit :=
  let frame := frame_of samples in
  r <- on_frameProcessor
         (fun fp =>
            let (fp', r) := FrameProcessor_process frame fp in
            mkOutcome fp' [] r);;
  this <- get;;
  (match probs r with
   | Some p => invoke (onFrameProcessed (options this)) (OnFrameProcessed p)
   | None => ret tt
   end);;
  match msg r with
  | Some SpeechStart =>
      invoke (onSpeechStart (options this)) OnSpeechStart
  | Some VADMisfire =>
      invoke (onVADMisfire (options this)) OnVADMisfire
  | Some SpeechEnd =>
      invoke (onSpeechEnd (options this)) (OnSpeechEnd (audio r))
  | Some SpeechSegment =>
      invoke (onSpeechSegment (options this)) (OnSpeechSegment (audio r))
  | _ => ret tt
  end.

(** The handler [init] installs on [vadNode.port.onmessage]. *)
Definition onmessage (ev : MessageEvent.t) : M t unit :=
  match option_map WorkletMessage.message (MessageEvent.data ev) with
  | Some (TagMessage AudioFrame) =>
      match MessageEvent.data ev with
      | Some d =>
          frame <- liftRes (new_Float32Array (WorkletMessage.data d));;
          processFrame frame
      | None => ret tt
      end
  | _ => ret tt
  end.

Definition init : M t unit :=
  this <- get;;
  external (EAddModule (ctx this) (workletURL (options this)))
           (audioWorklet_addModule browser (ctx this)
                                   (workletURL (options this)));;
  vadNode <- external
               (ENewAudioWorkletNode (ctx this) "vad-helper-worklet"
                                     (frameSamples (options this)))
               (new_AudioWorkletNode browser (ctx this) "vad-helper-worklet"
                                     (frameSamples (options this)));;
  modify (set_entryNode vadNode);;
  let fetcher := override imported_modelFetcher
                          (modelFetcher (options this)) in
  model <- external (ESileroNew fetcher) (Silero_new fetcher);;
  modify (set_frameProcessor
            (FrameProcessor_new model {|
               frameSamples := frameSamples (options this);
               positiveSpeechThreshold :=
                 positiveSpeechThreshold (options this);
               negativeSpeechThreshold :=
                 negativeSpeechThreshold (options this);
               redemptionFrames := redemptionFrames (options this);
               preSpeechPadFrames := preSpeechPadFrames (options this);
               minSpeechFrames := minSpeechFrames (options this);
               maxSpeechFrames := maxSpeechFrames (options this)
             |}));;
  emit [ESetOnMessage vadNode].

(** [static async new(ctx, options = {})] *)
Definition new (ctx : AudioContext) (options : Partial.t) : IO t :=
  vad <- liftRes
           (constructor ctx (spread defaultRealTimeVADOptions options));;
  on_new vad init.
End Class.
End AudioNodeVAD.

(** ** class MicVAD *)
Module MicVAD.
Section Class.
Context `{Imports} (browser : Browser).

(** [options.stream], before the field [stream] of the class hides it. *)
Local Abbreviation options_stream := stream.

Record t := {
  options : RealTimeVADOptions;
  audioContext : option AudioContext;
  stream : option MediaStream;
  audioNodeVAD : option AudioNodeVAD.t;
  listening : bool
}.

Definition set_stream (s : MediaStream) (this : t) : t :=
  {| options := options this; audioContext := audioContext this;
     stream := Some s; audioNodeVAD := audioNodeVAD this;
     listening := listening this |}.

Definition set_audioContext (c : AudioContext) (this : t) : t :=
  {| options := options this; audioContext := Some c;
     stream := stream this; audioNodeVAD := audioNodeVAD this;
     listening := listening this |}.

Definition set_audioNodeVAD (v : AudioNodeVAD.t) (this : t) : t :=
  {| options := options this; audioContext := audioContext this;
     stream := stream this; audioNodeVAD := Some v;
     listening := listening this |}.

Definition set_listening (b : bool) (this : t) : t :=
  {| options := options this; audioContext := audioContext this;
     stream := stream this; audioNodeVAD := audioNodeVAD this;
     listening := b |}.

(** [this.audioNodeVAD.method()] *)
Definition on_audioNodeVAD {A} (m : M AudioNodeVAD.t A) : M t A :=
  on_field "audioNodeVAD" audioNodeVAD set_audioNodeVAD m.

Definition constructor (options : RealTimeVADOptions) : Res t :=
  match validateOptions options with
  | Ok _ => Ok {| options := options; audioContext := None;
                  stream := None; audioNodeVAD := None;
                  listening := false |}
  | Err e => Err e
  end.

Definition init : M t unit :=
  this <- get;;
  s <- match options_stream (options this) with
       | None =>
           let constraints := {|
             additional :=
               override [] (additionalAudioConstraints (options this));
             channelCount := 1;
             echoCancellation := true;
             autoGainControl := true;
             noiseSuppression := true
           |} in
           external (EGetUserMedia constraints)
                    (getUserMedia browser constraints)
       | Some s => ret s
       end;;
  modify (set_stream s);;
  c <- external ENewAudioContext (new_AudioContext browser);;
  modify (set_audioContext c);;
  source <- external (ENewMediaStreamAudioSourceNode c s)
                     (new_MediaStreamAudioSourceNode browser c s);;
  vad <- liftIO (AudioNodeVAD.new browser c (as_partial (options this)));;
  modify (set_audioNodeVAD vad);;
  on_audioNodeVAD (AudioNodeVAD.receive browser source).

Definition pause : M t unit :=
  on_audioNodeVAD AudioNodeVAD.pause;;
  modify (set_listening false).

Definition start : M t unit :=
  on_audioNodeVAD AudioNodeVAD.start;;
  modify (set_listening true).

(** [static async new(options = {})] *)
Definition new (options : Partial.t) : IO t :=
  vad <- liftRes (constructor (spread defaultRealTimeVADOptions options));;
  on_new vad init.
End Class.
End MicVAD.

(** ** The frame processor of [./_common]

    [FrameProcessor] and [validateOptions] live in [./_common], which is
    not part of the wrapper's file.  This module gives them as the
    specification describes them (its "Segmenter"), together with the
    [Imports] instance that plugs them into the wrapper. *)
Module Segmenter.

(** Modelled from the spec: the upper end of the threshold range of the
    missing [validateOptions], 1 as a binary64 value. *)
Definition one : number := S754_finite false 4503599627370496 (-52).

(** Modelled from the spec: the lifecycle events of the missing frame
    processor, the closed sum of section 9 without the per-frame
    observation, which travels beside it. *)
Inductive Event :=
| EvSpeechStart
| EvSpeechEnd (audio : Float32Array)
| EvVADMisfire
| EvSpeechSegment (audio : Float32Array).

(** Modelled from the spec: what one [process] call of the missing frame
    processor yields, [(probability, event?)], and whether inference failed
    on this frame (the diagnostic of section 7). *)
Record Output := {
  probability : SpeechProbabilities;
  event : option Event;
  diagnostic : bool
}.

(** Modelled from the spec: the state of the missing frame processor's
    state machine; [ActiveSpeech] carries the redemption counter. *)
Inductive SegmenterState :=
| Idle
| ActiveSpeech (redemption : Z).

(** Modelled from the spec: the two readings of the missing
    [FrameProcessor.process] on the pad frames that seed an utterance.
    Step 1 pushes the current frame into the ring and step 4 seeds the
    utterance with the ring's contents followed by the frame; the pad is
    the ring's contents before the push (the frames preceding the onset) or
    after it. *)
Inductive PadReading :=
| PadBeforePush
| PadAfterPush.

(** Modelled from the spec: the push of the missing RingPadBuffer, which
    keeps the most recent [capacity] frames and evicts the oldest. *)
Definition ring_push (capacity : Z) (frame : Frame) (ring : list Frame)
  : list Frame :=
  let r := ring ++ [frame] in
  skipn (List.length r - Z.to_nat capacity)%nat r.

(** Modelled from the spec: the payload of the missing frame processor's
    events, the flat concatenation of the frames' samples in arrival
    order. *)
Definition concatenation (frames : list Frame) : Float32Array :=
  flat_map samples frames.

(** Modelled from the spec: the probability the missing frame processor
    reports for a frame treated as [isSpeech = 0]. *)
Definition silent : SpeechProbabilities :=
  {| notSpeech := one; isSpeech := zero |}.

Section Model.

(** The probability model: [infer] answers a probability or fails,
    [resetState] succeeds or fails; both may change the model. *)
Variable ModelState : Type.
Variable infer :
  Float32Array -> ModelState -> ModelState * option SpeechProbabilities.
Variable resetState : ModelState -> ModelState * bool.
Variable reading : PadReading.

(** Modelled from the spec: the data of the missing frame processor
    (configuration, model handle, both buffers, state, the number of frames
    accumulated across the utterance, and whether a state reset failed). *)
Record t := {
  config : FrameProcessorOptions;
  model : ModelState;
  ringPad : list Frame;
  utterance : list Frame;
  state : SegmenterState;
  accumulated : Z;
  failed : bool
}.

(** Modelled from the spec: construction of the missing frame processor,
    idle with empty buffers. *)
Definition create (model : ModelState) (config : FrameProcessorOptions) : t :=
  {| config := config; model := model; ringPad := []; utterance := [];
     state := Idle; accumulated := 0; failed := false |}.

(** Modelled from the spec: one assignment of everything but the
    configuration of the missing frame processor, which never changes. *)
Definition update (this : t) (model : ModelState) (ring buffer : list Frame)
    (state : SegmenterState) (accumulated : Z) (failed : bool) : t :=
  {| config := config this; model := model; ringPad := ring;
     utterance := buffer; state := state; accumulated := accumulated;
     failed := failed |}.

(** Modelled from the spec: the per-call algorithm of the missing
    [FrameProcessor.process] (section 4.1) with the failure policies of
    section 7. *)
Definition process (frame : Frame) (this : t) : t * Res Output :=
  if failed this then (this, Err ModelStateError) else
  let cfg := config this in
  (* 1. push into the ring *)
  let ring := ring_push (preSpeechPadFrames cfg) frame (ringPad this) in
  let pad := match reading with
             | PadBeforePush => ringPad this
             | PadAfterPush => ring
             end in
  (* 2. probability, skipping the model on a silent frame *)
  let '(model1, probability, diagnostic) :=
    if isEmpty frame then (model this, silent, false)
    else match infer (samples frame) (model this) with
         | (m, Some p) => (m, p, false)
         | (m, None) => (m, silent, true)
         end in
  let out e :=
    Ok {| probability := probability; event := e;
          diagnostic := diagnostic |} in
  (* 4. transition *)
  match state this with
  | Idle =>
      if SFleb (positiveSpeechThreshold cfg) (isSpeech probability)
      then (update this model1 ring (pad ++ [frame]) (ActiveSpeech 0) 1 false,
            out (Some EvSpeechStart))
      else (update this model1 ring (utterance this) Idle
                   (accumulated this) false,
            out None)
  | ActiveSpeech counter =>
      let buffer := utterance this ++ [frame] in
      let total := accumulated this + 1 in
      if maxSpeechFrames cfg <=? Z.of_nat (List.length buffer)
      then (update this model1 ring [] (ActiveSpeech counter) total false,
            out (Some (EvSpeechSegment (concatenation buffer))))
      else if SFltb (isSpeech probability) (negativeSpeechThreshold cfg)
      then
        let counter' := counter + 1 in
        if redemptionFrames cfg <=? counter'
        then
          let e := if minSpeechFrames cfg <=? total
                   then EvSpeechEnd (concatenation buffer)
                   else EvVADMisfire in
          match resetState model1 with
          | (model2, true) =>
              (update this model2 ring [] Idle 0 false, out (Some e))
          | (model2, false) =>
              (update this model2 ring [] Idle 0 true, Err ModelStateError)
          end
        else (update this model1 ring buffer (ActiveSpeech counter') total
                     false,
              out None)
      else (update this model1 ring buffer (ActiveSpeech 0) total false,
            out None)
  end.

(** Modelled from the spec: the frame source of the missing frame
    processor, which delivers frames one per [process] call in arrival
    order; a refused call yields its error and the feed goes on. *)
Fixpoint feed (frames : list Frame) (this : t) : t * list (Res Output) :=
  match frames with
  | [] => (this, [])
  | frame :: rest =>
      let (this1, o) := process frame this in
      let (this2, os) := feed rest this1 in
      (this2, o :: os)
  end.

(** Modelled from the spec: the missing [FrameProcessor] object, the state
    machine behind the gate that [pause] and [resume] close and open. *)
Record FrameProcessor := {
  segmenter : t;
  active : bool
}.

(** Modelled from the spec: the missing [FrameProcessor.pause]; it closes
    the gate and leaves buffers and counters as they are. *)
Definition pause (fp : FrameProcessor) : FrameProcessor :=
  {| segmenter := segmenter fp; active := false |}.

(** Modelled from the spec: the missing [FrameProcessor.resume]; it opens
    the gate and leaves buffers and counters as they are. *)
Definition resume (fp : FrameProcessor) : FrameProcessor :=
  {| segmenter := segmenter fp; active := true |}.

(** Modelled from the spec: the object the missing [process] resolves to,
    as the wrapper destructures it: the probability, the kind of the event
    and its audio payload. *)
Definition result_of (o : Output) : ProcessResult :=
  {| probs := Some (probability o);
     msg := match event o with
            | Some EvSpeechStart => Some SpeechStart
            | Some (EvSpeechEnd _) => Some SpeechEnd
            | Some EvVADMisfire => Some VADMisfire
            | Some (EvSpeechSegment _) => Some SpeechSegment
            | None => None
            end;
     audio := match event o with
              | Some (EvSpeechEnd a) | Some (EvSpeechSegment a) => Some a
              | _ => None
              end |}.

(** Modelled from the spec: the missing [FrameProcessor.process] as the
    wrapper calls it.  While paused the state machine is not entered at
    all and the call resolves to an object without fields. *)
Definition gated_process (frame : Frame) (fp : FrameProcessor)
  : FrameProcessor * Res ProcessResult :=
  if active fp then
    let (s, r) := process frame (segmenter fp) in
    ({| segmenter := s; active := true |},
     match r with
     | Ok o => Ok (result_of o)
     | Err e => Err e
     end)
  else (fp, Ok {| probs := None; msg := None; audio := None |}).

End Model.

(** Modelled from the spec: the range test of the missing
    [validateOptions]; a threshold is in [[0,1]] when
    [0 <= t && t <= 1]. *)
Definition in_unit_interval (t : number) : bool :=
  SFleb zero t && SFleb t one.

(** Modelled from the spec: the missing [validateOptions] of [./_common],
    section 7 with the ranges of section 6; it throws a [ConfigError] that
    names the first field found to break a constraint. *)
Definition validateOptions (o : FrameProcessorOptions) : Res unit :=
  if negb (in_unit_interval (positiveSpeechThreshold o))
  then Err (ConfigError "positiveSpeechThreshold")
  else if negb (in_unit_interval (negativeSpeechThreshold o))
  then Err (ConfigError "negativeSpeechThreshold")
  else if SFltb (positiveSpeechThreshold o) (negativeSpeechThreshold o)
  then Err (ConfigError "negativeSpeechThreshold")
  else if frameSamples o <=? 0
  then Err (ConfigError "frameSamples")
  else if redemptionFrames o <? 0
  then Err (ConfigError "redemptionFrames")
  else if preSpeechPadFrames o <? 0
  then Err (ConfigError "preSpeechPadFrames")
  else if minSpeechFrames o <=? 0
  then Err (ConfigError "minSpeechFrames")
  else if maxSpeechFrames o <? minSpeechFrames o
  then Err (ConfigError "maxSpeechFrames")
  else Ok tt.

End Segmenter.

(** The wrapper's imports, with the frame processor and the validation of
    the specification; the model, the default options, the default fetcher
    and the asset path stay parameters.  The specification does not say
    whether a new frame processor delivers frames before the first
    [resume]; [delivering] settles it. *)
Definition spec_imports (ModelState : Type)
    (infer : Float32Array -> ModelState
             -> ModelState * option SpeechProbabilities)
    (resetState : ModelState -> ModelState * bool)
    (reading : Segmenter.PadReading)
    (delivering : bool)
    (load : ModelFetcher -> Res ModelState)
    (defaults : FrameProcessorOptions)
    (fetcher : ModelFetcher)
    (asset : string -> string) : Imports :=
  {| Silero := ModelState;
     FrameProcessor := Segmenter.FrameProcessor ModelState;
     validateOptions := Segmenter.validateOptions;
     Silero_new := load;
     FrameProcessor_new := fun model options =>
       {| Segmenter.segmenter := Segmenter.create model options;
          Segmenter.active := delivering |};
     FrameProcessor_process :=
       Segmenter.gated_process infer resetState reading;
     FrameProcessor_pause := @Segmenter.pause ModelState;
     FrameProcessor_resume := @Segmenter.resume ModelState;
     defaultFrameProcessorOptions := defaults;
     imported_modelFetcher := fetcher;
     assetPath := asset |}.

(** ** Reading the effects of a call *)

Definition is_lifecycle (call : CallbackCall) : bool :=
  match call with
  | OnFrameProcessed _ => false
  | OnVADMisfire | OnSpeechStart | OnSpeechEnd _ | OnSpeechSegment _ => true
  end.

(** The callback calls among the effects, in order. *)
Fixpoint invocations (es : list Effect) : list (Callback * CallbackCall) :=
  match es with
  | [] => []
  | EInvoke f call :: rest => (f, call) :: invocations rest
  | _ :: rest => invocations rest
  end.

(** The calls of [onSpeechStart], [onSpeechEnd], [onVADMisfire] and
    [onSpeechSegment]. *)
Definition lifecycle_calls (es : list Effect) : list (Callback * CallbackCall) :=
  filter (fun c => is_lifecycle (snd c)) (invocations es).

(** The calls of [onFrameProcessed]. *)
Definition observations (es : list Effect) : list (Callback * CallbackCall) :=
  filter (fun c => negb (is_lifecycle (snd c))) (invocations es).

(** The call [processFrame] makes for a message, if any. *)
Definition dispatched (options : RealTimeVADOptions) (r : ProcessResult)
  : list (Callback * CallbackCall) :=
  match msg r with
  | Some SpeechStart => [(onSpeechStart options, OnSpeechStart)]
  | Some VADMisfire => [(onVADMisfire options, OnVADMisfire)]
  | Some SpeechEnd => [(onSpeechEnd options, OnSpeechEnd (audio r))]
  | Some SpeechSegment =>
      [(onSpeechSegment options, OnSpeechSegment (audio r))]
  | Some AudioFrame | None => []
  end.

(** The call [processFrame] makes for the probabilities, if any. *)
Definition observed (options : RealTimeVADOptions) (r : ProcessResult)
  : list (Callback * CallbackCall) :=
  match probs r with
  | Some p => [(onFrameProcessed options, OnFrameProcessed p)]
  | None => []
  end.

(** One field of the constructed options against the caller's object. *)
Definition overridden {A} (field : RealTimeVADOptions -> A)
    (given : Partial.t -> option A)
    (result defaults : RealTimeVADOptions) (options : Partial.t) : Prop :=
  match given options with
  | Some a => field result = a
  | None => field result = field defaults
  end.

Definition pointwise_override (result defaults : RealTimeVADOptions)
    (options : Partial.t) : Prop :=
  overridden frameSamples Partial.frameSamples result defaults options
  /\ overridden positiveSpeechThreshold Partial.positiveSpeechThreshold
                result defaults options
  /\ overridden negativeSpeechThreshold Partial.negativeSpeechThreshold
                result defaults options
  /\ overridden redemptionFrames Partial.redemptionFrames
                result defaults options
  /\ overridden preSpeechPadFrames Partial.preSpeechPadFrames
                result defaults options
  /\ overridden minSpeechFrames Partial.minSpeechFrames
                result defaults options
  /\ overridden maxSpeechFrames Partial.maxSpeechFrames
                result defaults options
  /\ overridden onFrameProcessed Partial.onFrameProcessed
                result defaults options
  /\ overridden onVADMisfire Partial.onVADMisfire result defaults options
  /\ overridden onSpeechStart Partial.onSpeechStart result defaults options
  /\ overridden onSpeechEnd Partial.onSpeechEnd result defaults options
  /\ overridden onSpeechSegment Partial.onSpeechSegment
                result defaults options
  /\ overridden additionalAudioConstraints Partial.additionalAudioConstraints
                result defaults options
  /\ overridden workletURL Partial.workletURL result defaults options
  /\ overridden stream Partial.stream result defaults options
  /\ overridden modelFetcher Partial.modelFetcher result defaults options.

(** ** Configuration constraints, as the specification words them *)

(** [t < 0] or [t > 1]. *)
Definition outside_unit_interval (t : number) : Prop :=
  SFltb t zero = true \/ SFltb Segmenter.one t = true.

Definition violates (o : FrameProcessorOptions) : Prop :=
  outside_unit_interval (positiveSpeechThreshold o)
  \/ outside_unit_interval (negativeSpeechThreshold o)
  \/ SFltb (positiveSpeechThreshold o) (negativeSpeechThreshold o) = true
  \/ frameSamples o <= 0
  \/ minSpeechFrames o <= 0
  \/ maxSpeechFrames o < minSpeechFrames o.

(** The field named by an error is one that breaks a constraint. *)
Definition offending (o : FrameProcessorOptions) (field : string) : Prop :=
  (field = "positiveSpeechThreshold"
   /\ Segmenter.in_unit_interval (positiveSpeechThreshold o) = false)
  \/ (field = "negativeSpeechThreshold"
      /\ (Segmenter.in_unit_interval (negativeSpeechThreshold o) = false
          \/ SFltb (positiveSpeechThreshold o) (negativeSpeechThreshold o)
             = true))
  \/ (field = "frameSamples" /\ frameSamples o <= 0)
  \/ (field = "redemptionFrames" /\ redemptionFrames o < 0)
  \/ (field = "preSpeechPadFrames" /\ preSpeechPadFrames o < 0)
  \/ (field = "minSpeechFrames" /\ minSpeechFrames o <= 0)
  \/ (field = "maxSpeechFrames" /\ maxSpeechFrames o < minSpeechFrames o).

(** ** A concrete scenario

    The configuration and the probabilities of the specification's worked
    example, a model that replays a list of probabilities, and a browser
    in which every call succeeds. *)
Module Scenario.

(** Decimal constants as the binary64 values they denote. *)
Definition d0_1 : number := S754_finite false 7205759403792794 (-56).
Definition d0_2 : number := S754_finite false 7205759403792794 (-55).
Definition d0_35 : number := S754_finite false 6305039478318694 (-54).
Definition d0_5 : number := S754_finite false 4503599627370496 (-53).
Definition d0_6 : number := S754_finite false 5404319552844595 (-53).
Definition d0_7 : number := S754_finite false 6305039478318694 (-53).
Definition d0_8 : number := S754_finite false 7205759403792794 (-53).

Definition config : FrameProcessorOptions := {|
  frameSamples := 480;
  positiveSpeechThreshold := d0_5;
  negativeSpeechThreshold := d0_35;
  redemptionFrames := 8;
  preSpeechPadFrames := 1;
  minSpeechFrames := 3;
  maxSpeechFrames := 1000
|}.

Definition isSpeech_sequence : list number :=
  [d0_1; d0_1; d0_6; d0_7; d0_8; d0_2; d0_1; d0_1; d0_1; d0_1; d0_1; d0_1;
   d0_1; d0_1; d0_1].

(** The probabilities of the example, with any [notSpeech] beside them. *)
Definition probabilities (notSpeech : nat -> number)
  : list SpeechProbabilities :=
  map (fun iv => {| notSpeech := notSpeech (fst iv); isSpeech := snd iv |})
      (combine (seq 0 15) isSpeech_sequence).

(** A model that answers the next probability of a list, and fails when
    the list is used up; resetting it succeeds and changes nothing. *)
Definition Replay := list SpeechProbabilities.

Definition infer (_ : Float32Array) (st : Replay)
  : Replay * option SpeechProbabilities :=
  match st with
  | p :: rest => (rest, Some p)
  | [] => ([], None)
  end.

Definition resetState (st : Replay) : Replay * bool := (st, true).

(** A frame as the frame source delivers it when it is not silent. *)
Definition audible (s : Float32Array) : Frame :=
  {| samples := s; isEmpty := false |}.

Definition events (outs : list (Res Segmenter.Output))
  : list (Res (option Segmenter.Event)) :=
  map (fun r => match r with
                | Ok o => Ok (Segmenter.event o)
                | Err e => Err e
                end) outs.

Definition browser : Browser := {|
  getUserMedia := fun _ => Ok (MediaStreamId 0);
  new_AudioContext := Ok (AudioContextId 0);
  new_MediaStreamAudioSourceNode := fun _ _ => Ok (AudioNodeId 0);
  audioWorklet_addModule := fun _ _ => Ok tt;
  new_AudioWorkletNode := fun _ _ _ => Ok (AudioNodeId 1);
  connect := fun _ _ => Ok tt
|}.

(** The imports with the specification's frame processor, a model that
    replays [script], and the example's configuration as the default. *)
Definition imports (script : Replay) : Imports :=
  spec_imports infer resetState Segmenter.PadBeforePush true
               (fun _ => Ok script) config (ModelFetcherId 0)
               (fun name => "/" ++ name)%string.

(** The [AudioNodeVAD] that [AudioNodeVAD.new(ctx)] resolves to in this
    scenario (lemma [Scenario_new] below). *)
Definition vad (script : Replay) : @AudioNodeVAD.t (imports script) :=
  AudioNodeVAD.Build_t (H := imports script)
    (AudioContextId 0)
    (@defaultRealTimeVADOptions (imports script))
    (Some {| Segmenter.segmenter := Segmenter.create script config;
             Segmenter.active := true |})
    (Some (AudioNodeId 1)).


(** The [MicVAD] that [MicVAD.new()] resolves to in this scenario. *)
Definition mic (script : Replay) : @MicVAD.t (imports script) :=
  MicVAD.Build_t (H := imports script)
    (@defaultRealTimeVADOptions (imports script))
    (Some (AudioContextId 0))
    (Some (MediaStreamId 0))
    (Some (vad script))
    false.

(** A muted frame, and one of ordinary audio. *)
Definition muted : Float32Array := [zero; zero; zero].
Definition ordinary : Float32Array := [d0_5; SFopp d0_1; d0_2].

(** A model about to answer 0.8, with the [AudioNodeVAD] built on it. *)
Definition loud : Replay := [{| notSpeech := d0_2; isSpeech := d0_8 |}].

(** The example's probabilities with [notSpeech] left at zero. *)
Definition script : Replay := probabilities (fun _ => zero).

(** The [AudioNodeVAD] of the scenario after [n] muted frames went through
    its frame processor. *)
Definition vad_after (n : nat) : @AudioNodeVAD.t (imports script) :=
  AudioNodeVAD.Build_t (H := imports script)
    (AudioContextId 0)
    (@defaultRealTimeVADOptions (imports script))
    (Some {| Segmenter.segmenter :=
               fst (Segmenter.feed infer resetState Segmenter.PadBeforePush
                      (repeat (AudioNodeVAD.frame_of muted) n)
                      (Segmenter.create script config));
             Segmenter.active := true |})
    (Some (AudioNodeId 1)).

(** Port messages: one with a foreign tag, and the buffer of one carrying
    a frame of three zero samples. *)
Definition foreign : MessageEvent.t :=
  {| MessageEvent.data :=
       Some {| WorkletMessage.message := TagOther "hello";
               WorkletMessage.data := [] |} |}.

Definition muted_buffer : ArrayBuffer := repeat x00 12.

(** A frame of 480 samples of non-zero audio. *)
Definition tone : Float32Array := repeat d0_5 480.

(** A caller's options: two fields given, the others left out. *)
Definition custom : Partial.t := {|
  Partial.frameSamples := None;
  Partial.positiveSpeechThreshold := None;
  Partial.negativeSpeechThreshold := None;
  Partial.redemptionFrames := Some 4;
  Partial.preSpeechPadFrames := None;
  Partial.minSpeechFrames := None;
  Partial.maxSpeechFrames := None;
  Partial.onFrameProcessed := None;
  Partial.onVADMisfire := None;
  Partial.onSpeechStart := Some (UserCallback 7);
  Partial.onSpeechEnd := None;
  Partial.onSpeechSegment := None;
  Partial.additionalAudioConstraints := None;
  Partial.workletURL := None;
  Partial.stream := None;
  Partial.modelFetcher := None
|}.

(** A caller's options that ask for fewer frames at most than at least. *)
Definition too_short : Partial.t := {|
  Partial.frameSamples := None;
  Partial.positiveSpeechThreshold := None;
  Partial.negativeSpeechThreshold := None;
  Partial.redemptionFrames := None;
  Partial.preSpeechPadFrames := None;
  Partial.minSpeechFrames := None;
  Partial.maxSpeechFrames := Some 2;
  Partial.onFrameProcessed := None;
  Partial.onVADMisfire := None;
  Partial.onSpeechStart := None;
  Partial.onSpeechEnd := None;
  Partial.onSpeechSegment := None;
  Partial.additionalAudioConstraints := None;
  Partial.workletURL := None;
  Partial.stream := None;
  Partial.modelFetcher := None
|}.

End Scenario.

(** ** Calls in sequence

    The methods of an [AudioNodeVAD] a holder of the instance or the
    worklet port can call once it exists. *)
Inductive Call :=
| CallPause
| CallStart
| CallReceive (node : AudioNode)
| CallProcessFrame (samples : Float32Array)
| CallOnMessage (ev : MessageEvent.t).

Section Calls.
Context `{Imports} (browser : Browser).

Definition call (c : Call) : M AudioNodeVAD.t unit :=
  match c with
  | CallPause => AudioNodeVAD.pause
  | CallStart => AudioNodeVAD.start
  | CallReceive node => AudioNodeVAD.receive browser node
  | CallProcessFrame samples => AudioNodeVAD.processFrame samples
  | CallOnMessage ev => AudioNodeVAD.onmessage ev
  end.

(** Calls made one after the other, each run to its end before the next
    starts; a call that throws does not keep the later ones from being
    made.  The result is the instance at the end and all effects. *)
Fixpoint calls (cs : list Call) (this : AudioNodeVAD.t)
  : AudioNodeVAD.t * list Effect :=
  match cs with
  | [] => (this, [])
  | c :: rest =>
      let o := call c this in
      let (this', es) := calls rest (final o) in
      (this', emitted o ++ es)
  end.

(** Two states of an instance that differ at most in what the frame
    processor holds. *)
Definition same_wiring (a b : AudioNodeVAD.t) : Prop :=
  AudioNodeVAD.ctx a = AudioNodeVAD.ctx b
  /\ AudioNodeVAD.options a = AudioNodeVAD.options b
  /\ AudioNodeVAD.entryNode a = AudioNodeVAD.entryNode b
  /\ (AudioNodeVAD.frameProcessor a = None
      <-> AudioNodeVAD.frameProcessor b = None).

End Calls.

(** The calls that hand a frame to [processFrame]. *)
Definition carries_frame (c : Call) : bool :=
  match c with
  | CallProcessFrame _ | CallOnMessage _ => true
  | CallPause | CallStart | CallReceive _ => false
  end.

(** ** Reading more of the effects *)

(** The constraints [getUserMedia] was called with. *)
Fixpoint media_requests (es : list Effect) : list MediaStreamConstraints :=
  match es with
  | [] => []
  | EGetUserMedia c :: rest => c :: media_requests rest
  | _ :: rest => media_requests rest
  end.

(** The fetchers [Silero.new] was called with. *)
Fixpoint fetchers (es : list Effect) : list ModelFetcher :=
  match es with
  | [] => []
  | ESileroNew f :: rest => f :: fetchers rest
  | _ :: rest => fetchers rest
  end.

(** The nodes whose port got the message handler. *)
Fixpoint handled_ports (es : list Effect) : list AudioNode :=
  match es with
  | [] => []
  | ESetOnMessage n :: rest => n :: handled_ports rest
  | _ :: rest => handled_ports rest
  end.

(** The connections made with [node.connect]. *)
Fixpoint connections (es : list Effect) : list (AudioNode * AudioNode) :=
  match es with
  | [] => []
  | EConnect source destination :: rest =>
      (source, destination) :: connections rest
  | _ :: rest => connections rest
  end.

(** The lines written with [log.debug]. *)
Fixpoint debug_lines (es : list Effect) : list string :=
  match es with
  | [] => []
  | ELogDebug text :: rest => text :: debug_lines rest
  | _ :: rest => debug_lines rest
  end.

(** The five functions of a callbacks record. *)
Definition callbacks_of (c : RealTimeVADCallbacks) : list Callback :=
  [onFrameProcessed c; onVADMisfire c; onSpeechStart c; onSpeechEnd c;
   onSpeechSegment c].

(** The constraints [MicVAD.init] asks [getUserMedia] for. *)
Definition requested_constraints (options : RealTimeVADOptions)
  : MediaStreamConstraints := {|
  additional := override [] (additionalAudioConstraints options);
  channelCount := 1;
  echoCancellation := true;
  autoGainControl := true;
  noiseSuppression := true
|}.

(** ** More of the scenario *)
Module Session.

(** A browser in which the user denies the microphone. *)
Definition denied : Browser := {|
  getUserMedia := fun _ => Err (Rejected "NotAllowedError");
  new_AudioContext := Ok (AudioContextId 0);
  new_MediaStreamAudioSourceNode := fun _ _ => Ok (AudioNodeId 0);
  audioWorklet_addModule := fun _ _ => Ok tt;
  new_AudioWorkletNode := fun _ _ _ => Ok (AudioNodeId 1);
  connect := fun _ _ => Ok tt
|}.

(** A caller's options with a stream and a model fetcher of their own. *)
Definition own_stream : Partial.t := {|
  Partial.frameSamples := None;
  Partial.positiveSpeechThreshold := None;
  Partial.negativeSpeechThreshold := None;
  Partial.redemptionFrames := None;
  Partial.preSpeechPadFrames := None;
  Partial.minSpeechFrames := None;
  Partial.maxSpeechFrames := None;
  Partial.onFrameProcessed := None;
  Partial.onVADMisfire := None;
  Partial.onSpeechStart := None;
  Partial.onSpeechEnd := None;
  Partial.onSpeechSegment := None;
  Partial.additionalAudioConstraints := None;
  Partial.workletURL := None;
  Partial.stream := Some (Some (MediaStreamId 5));
  Partial.modelFetcher := Some (Some (ModelFetcherId 9))
|}.

(** An audio-frame message whose buffer has three bytes. *)
Definition misaligned : MessageEvent.t :=
  {| MessageEvent.data :=
       Some {| WorkletMessage.message := TagMessage AudioFrame;
               WorkletMessage.data := [x00; x00; x00] |} |}.

(** A frame processor whose [process] always rejects; the rest is as in
    the scenario. *)
Definition rejecting : Imports := {|
  Silero := unit;
  FrameProcessor := nat;
  validateOptions := fun _ => Ok tt;
  Silero_new := fun _ => Ok tt;
  FrameProcessor_new := fun _ _ => 0%nat;
  FrameProcessor_process := fun _ n => (S n, Err ModelStateError);
  FrameProcessor_pause := fun n => n;
  FrameProcessor_resume := fun n => n;
  defaultFrameProcessorOptions := Scenario.config;
  imported_modelFetcher := ModelFetcherId 0;
  assetPath := fun name => name
|}.

(** An initialised instance on that frame processor. *)
Definition stuck : @AudioNodeVAD.t rejecting :=
  AudioNodeVAD.Build_t (H := rejecting)
    (AudioContextId 0) (@defaultRealTimeVADOptions rejecting)
    (Some 0%nat) (Some (AudioNodeId 1)).

(** The objects the two constructors return for the default options of
    the scenario. *)
Definition fresh_vad : @AudioNodeVAD.t (Scenario.imports Scenario.script) :=
  AudioNodeVAD.Build_t (H := Scenario.imports Scenario.script)
    (AudioContextId 0)
    (@defaultRealTimeVADOptions (Scenario.imports Scenario.script))
    None None.

Definition fresh_mic : @MicVAD.t (Scenario.imports Scenario.script) :=
  MicVAD.Build_t (H := Scenario.imports Scenario.script)
    (@defaultRealTimeVADOptions (Scenario.imports Scenario.script))
    None None None false.

End Session.

(** * Properties *)

(** ** Effects of callbacks *)

Lemma invocations_app (a b : list Effect) :
  invocations (a ++ b) = invocations a ++ invocations b.
Proof.
  induction a as [|e a IH]; [reflexivity|].
  destruct e; cbn; rewrite ?IH; reflexivity.
Qed.

Lemma invocations_callback_body (f : Callback) :
  invocations (callback_body f) = [].
Proof. destruct f; reflexivity. Qed.

Lemma invocations_invoke {S} (f : Callback) (call : CallbackCall) (s : S) :
  invocations (emitted (invoke f call s)) = [(f, call)].
Proof. cbn. now rewrite invocations_callback_body. Qed.

(** ** [AudioNodeVAD.processFrame] *)
Section ProcessFrame.
Context `{Imports}.

Variable this : AudioNodeVAD.t.
Variable samples : Float32Array.

(** Without a frame processor the call throws before any callback. *)
Lemma processFrame_uninitialised :
  AudioNodeVAD.frameProcessor this = None ->
  AudioNodeVAD.processFrame samples this
  = mkOutcome this [] (Err (TypeError "frameProcessor")).
Proof.
  intros E.
  unfold AudioNodeVAD.processFrame, AudioNodeVAD.on_frameProcessor,
    bind, on_field.
  now rewrite E.
Qed.

(** When [process] rejects, the frame processor keeps what the call did to
    it and no callback runs. *)
Lemma processFrame_rejected fp fp' e :
  AudioNodeVAD.frameProcessor this = Some fp ->
  FrameProcessor_process (AudioNodeVAD.frame_of samples) fp = (fp', Err e) ->
  AudioNodeVAD.processFrame samples this
  = mkOutcome (AudioNodeVAD.set_frameProcessor fp' this) [] (Err e).
Proof.
  intros E P.
  unfold AudioNodeVAD.processFrame, AudioNodeVAD.on_frameProcessor,
    bind, on_field.
  rewrite E, P. reflexivity.
Qed.

(** When [process] resolves, the callbacks called are the observation (if
    [probs] is defined) followed by the dispatch of [msg]. *)
Lemma processFrame_resolved fp fp' r :
  AudioNodeVAD.frameProcessor this = Some fp ->
  FrameProcessor_process (AudioNodeVAD.frame_of samples) fp = (fp', Ok r) ->
  let o := AudioNodeVAD.processFrame samples this in
  final o = AudioNodeVAD.set_frameProcessor fp' this
  /\ result o = Ok tt
  /\ invocations (emitted o)
     = observed (AudioNodeVAD.options this) r
       ++ dispatched (AudioNodeVAD.options this) r.
Proof.
  intros E P.
  unfold AudioNodeVAD.processFrame, AudioNodeVAD.on_frameProcessor,
    bind, on_field, observed, dispatched.
  rewrite E, P. cbn.
  destruct (probs r) as [p|], (msg r) as [[]|]; cbn;
    rewrite ?invocations_app; cbn;
    rewrite ?invocations_app, ?invocations_callback_body;
    repeat split; reflexivity.
Qed.

(** Whatever happens, the callbacks called by one [processFrame] are those
    of some result [r]: the observation and the dispatch, or none. *)
Lemma processFrame_invocations :
  invocations (emitted (AudioNodeVAD.processFrame samples this)) = []
  \/ exists r,
       invocations (emitted (AudioNodeVAD.processFrame samples this))
       = observed (AudioNodeVAD.options this) r
         ++ dispatched (AudioNodeVAD.options this) r.
Proof.
  destruct (AudioNodeVAD.frameProcessor this) as [fp|] eqn:E.
  - destruct (FrameProcessor_process (AudioNodeVAD.frame_of samples) fp)
      as [fp' [r|e]] eqn:P.
    + right. exists r. now apply (processFrame_resolved E P).
    + left. now rewrite (processFrame_rejected E P).
  - left. now rewrite (processFrame_uninitialised E).
Qed.

End ProcessFrame.

(** ** The scenario is what the wrapper builds *)

Lemma Scenario_new (script : Scenario.Replay) :
  AudioNodeVAD.new (H := Scenario.imports script) Scenario.browser
                   (AudioContextId 0) Partial.empty tt
  = mkOutcome tt
      [EAddModule (AudioContextId 0) "/vad.worklet.bundle.min.js";
       ENewAudioWorkletNode (AudioContextId 0) "vad-helper-worklet" 480;
       ESileroNew (ModelFetcherId 0);
       ESetOnMessage (AudioNodeId 1)]
      (Ok (Scenario.vad script)).
Proof. reflexivity. Qed.

Lemma Scenario_mic_new (script : Scenario.Replay) :
  MicVAD.new (H := Scenario.imports script) Scenario.browser Partial.empty tt
  = mkOutcome tt
      [EGetUserMedia {| additional := []; channelCount := 1;
                        echoCancellation := true; autoGainControl := true;
                        noiseSuppression := true |};
       ENewAudioContext;
       ENewMediaStreamAudioSourceNode (AudioContextId 0) (MediaStreamId 0);
       EAddModule (AudioContextId 0) "/vad.worklet.bundle.min.js";
       ENewAudioWorkletNode (AudioContextId 0) "vad-helper-worklet" 480;
       ESileroNew (ModelFetcherId 0);
       ESetOnMessage (AudioNodeId 1);
       EConnect (AudioNodeId 0) (AudioNodeId 1)]
      (Ok (Scenario.mic script)).
Proof. reflexivity. Qed.

(** ** Typed arrays *)

(** Twelve zero bytes are three zero samples; the bytes [00 00 00 3F] are
    the sample 0.5; three bytes are no [Float32Array]. *)
Lemma new_Float32Array_examples :
  new_Float32Array Scenario.muted_buffer = Ok Scenario.muted
  /\ new_Float32Array [x00; x00; x00; x3f]
     = Ok [S754_finite false 8388608 (-24)]
  /\ returns (new_Float32Array [x00; x00; x00]) = false.
Proof. repeat split; reflexivity. Qed.

(** ** The silence flag *)

Lemma some_false_iff {A} (p : A -> bool) (l : list A) :
  some l p = false <-> Forall (fun a => p a = false) l.
Proof.
  unfold some. induction l as [|a l IH]; cbn.
  - split; [constructor | reflexivity].
  - rewrite orb_false_iff, IH. split.
    + intros [Ha Hl]. now constructor.
    + intros F. inversion F; subst. now split.
Qed.

(** C1 (as the code has it): the flag [isEmpty] that [processFrame] computes
    is true exactly when no sample of the frame equals zero.  A muted frame
    of three zero samples is therefore not flagged, and a frame of ordinary
    non-zero audio is flagged: the opposite of a silence flag. *)
Theorem isEmpty_is_inverted :
  (forall samples : Float32Array,
      isEmpty (AudioNodeVAD.frame_of samples) = true
      <-> Forall (fun s => strict_eq s zero = false) samples)
  /\ isEmpty (AudioNodeVAD.frame_of Scenario.muted) = false
  /\ isEmpty (AudioNodeVAD.frame_of Scenario.ordinary) = true.
Proof.
  split; [|split; reflexivity].
  intros samples. unfold AudioNodeVAD.frame_of; cbn.
  rewrite negb_true_iff. apply some_false_iff.
Qed.

(** What the inverted flag does with the frame processor of the
    specification, idle, on a model about to answer 0.8: ordinary audio is
    taken for silence, the model is not asked and speech does not start; a
    muted frame goes to the model and starts speech. *)
Lemma ordinary_audio_bypasses_inference :
  invocations
    (emitted (AudioNodeVAD.processFrame Scenario.ordinary
                                        (Scenario.vad Scenario.loud)))
  = [(DefaultOnFrameProcessed, OnFrameProcessed Segmenter.silent)]
  /\ invocations
       (emitted (AudioNodeVAD.processFrame Scenario.muted
                                           (Scenario.vad Scenario.loud)))
     = [(DefaultOnFrameProcessed,
         OnFrameProcessed {| notSpeech := Scenario.d0_2;
                             isSpeech := Scenario.d0_8 |});
        (DefaultOnSpeechStart, OnSpeechStart)].
Proof. split; reflexivity. Qed.

(** ** Callbacks of one frame *)

(** C3: one call of [processFrame] calls at most one of [onSpeechStart],
    [onSpeechEnd], [onVADMisfire] and [onSpeechSegment]. *)
Theorem at_most_one_lifecycle_call :
  forall (I : Imports) (this : AudioNodeVAD.t) (samples : Float32Array),
    (List.length
       (lifecycle_calls (emitted (AudioNodeVAD.processFrame samples this)))
     <= 1)%nat.
Proof.
  intros I this samples. unfold lifecycle_calls.
  destruct (processFrame_invocations this samples) as [E|[r E]]; rewrite E.
  - cbn. lia.
  - unfold observed, dispatched.
    destruct (probs r), (msg r) as [[]|]; cbn; lia.
Qed.

(** C4: when the frame processor resolves with a message, [processFrame]
    calls exactly the callback of that message with its payload:
    [onSpeechEnd] and [onSpeechSegment] with the returned audio,
    [onSpeechStart] and [onVADMisfire] without arguments; any other message
    calls none of the four. *)
Theorem message_dispatched_to_its_callback :
  forall (I : Imports) (this : AudioNodeVAD.t) (samples : Float32Array)
         (fp fp' : FrameProcessor) (r : ProcessResult),
    AudioNodeVAD.frameProcessor this = Some fp ->
    FrameProcessor_process (AudioNodeVAD.frame_of samples) fp = (fp', Ok r) ->
    let options := AudioNodeVAD.options this in
    let calls :=
      lifecycle_calls (emitted (AudioNodeVAD.processFrame samples this)) in
    (msg r = Some SpeechEnd ->
     calls = [(onSpeechEnd options, OnSpeechEnd (audio r))])
    /\ (msg r = Some SpeechSegment ->
        calls = [(onSpeechSegment options, OnSpeechSegment (audio r))])
    /\ (msg r = Some SpeechStart ->
        calls = [(onSpeechStart options, OnSpeechStart)])
    /\ (msg r = Some VADMisfire ->
        calls = [(onVADMisfire options, OnVADMisfire)])
    /\ (msg r = Some AudioFrame \/ msg r = None -> calls = []).
Proof.
  intros I this samples fp fp' r E P options calls.
  destruct (processFrame_resolved this samples E P) as (_ & _ & Inv).
  subst calls options. unfold lifecycle_calls. rewrite Inv.
  unfold observed, dispatched.
  repeat split; intros M; try destruct M as [M|M]; rewrite M;
    destruct (probs r); reflexivity.
Qed.


(** C10: when the frame processor resolves with defined probabilities, the
    first callback [processFrame] calls is [onFrameProcessed], and the
    lifecycle callback, if any, comes after it. *)
Theorem observation_precedes_lifecycle :
  forall (I : Imports) (this : AudioNodeVAD.t) (samples : Float32Array)
         (fp fp' : FrameProcessor) (r : ProcessResult)
         (p : SpeechProbabilities),
    AudioNodeVAD.frameProcessor this = Some fp ->
    FrameProcessor_process (AudioNodeVAD.frame_of samples) fp = (fp', Ok r) ->
    probs r = Some p ->
    let es := emitted (AudioNodeVAD.processFrame samples this) in
    invocations es
    = (onFrameProcessed (AudioNodeVAD.options this), OnFrameProcessed p)
        :: lifecycle_calls es.
Proof.
  intros I this samples fp fp' r p E P Pr es. subst es.
  destruct (processFrame_resolved this samples E P) as (_ & _ & Inv).
  unfold lifecycle_calls. rewrite Inv. unfold observed, dispatched.
  rewrite Pr. destruct (msg r) as [[]|]; reflexivity.
Qed.

Lemma message_dispatched_witness :
  lifecycle_calls
    (emitted (AudioNodeVAD.processFrame Scenario.muted
                                        (Scenario.vad_after 12)))
  = [(DefaultOnSpeechEnd,
      OnSpeechEnd (Some (repeat zero 36)))].
Proof.
  refine (proj1 (@message_dispatched_to_its_callback
                   (Scenario.imports Scenario.script)
                   (Scenario.vad_after 12) Scenario.muted _ _ _
                   eq_refl eq_refl) eq_refl).
Defined.


Lemma observation_precedes_witness :
  invocations
    (emitted (AudioNodeVAD.processFrame Scenario.muted
                                        (Scenario.vad_after 12)))
  = [(DefaultOnFrameProcessed,
      OnFrameProcessed {| notSpeech := zero; isSpeech := Scenario.d0_1 |});
     (DefaultOnSpeechEnd, OnSpeechEnd (Some (repeat zero 36)))].
Proof.
  refine (@observation_precedes_lifecycle
            (Scenario.imports Scenario.script)
            (Scenario.vad_after 12) Scenario.muted _ _ _ _
            eq_refl eq_refl eq_refl).
Defined.


(** ** Messages on the worklet port *)

(** C9: a port message without data, or whose [message] field is not
    [Message.AudioFrame], leaves the wrapper as it was and has no effect:
    no frame is processed and no callback is called.  A message tagged
    [Message.AudioFrame] builds a [Float32Array] from the carried buffer and
    hands it to [processFrame]. *)
Theorem only_audio_frames_are_processed :
  forall (I : Imports) (this : AudioNodeVAD.t) (ev : MessageEvent.t),
    ((MessageEvent.data ev = None
      \/ exists d, MessageEvent.data ev = Some d
                   /\ WorkletMessage.message d <> TagMessage AudioFrame) ->
     AudioNodeVAD.onmessage ev this = mkOutcome this [] (Ok tt))
    /\ (forall d, MessageEvent.data ev = Some d ->
                  WorkletMessage.message d = TagMessage AudioFrame ->
                  AudioNodeVAD.onmessage ev this
                  = (frame <- liftRes
                                (new_Float32Array (WorkletMessage.data d));;
                     AudioNodeVAD.processFrame frame) this).
Proof.
  intros I this ev. unfold AudioNodeVAD.onmessage. split.
  - intros [E|(d & E & T)]; rewrite E; cbn; [reflexivity|].
    destruct (WorkletMessage.message d) as [|[]|]; try reflexivity.
    now contradiction T.
  - intros d E T. rewrite E. cbn. now rewrite T.
Qed.

Lemma only_audio_frames_witness :
  AudioNodeVAD.onmessage Scenario.foreign (Scenario.vad_after 12)
  = mkOutcome (Scenario.vad_after 12) [] (Ok tt).
Proof.
  refine (proj1 (@only_audio_frames_are_processed
                   (Scenario.imports Scenario.script)
                   (Scenario.vad_after 12) Scenario.foreign) _).
  right. eexists. split; [reflexivity|]. cbn. discriminate.
Defined.

(** An audio-frame message in the scenario: the three zero samples reach
    the frame processor and both callbacks of the frame run. *)
Lemma audio_frame_message_is_processed :
  invocations
    (emitted
       (AudioNodeVAD.onmessage
          {| MessageEvent.data :=
               Some {| WorkletMessage.message := TagMessage AudioFrame;
                       WorkletMessage.data := Scenario.muted_buffer |} |}
          (Scenario.vad_after 12)))
  = [(DefaultOnFrameProcessed,
      OnFrameProcessed {| notSpeech := zero; isSpeech := Scenario.d0_1 |});
     (DefaultOnSpeechEnd, OnSpeechEnd (Some (repeat zero 36)))].
Proof. reflexivity. Qed.

(** ** Options of a new instance *)

(** A static method that starts with a call that may throw returns only
    if that call returned. *)
Lemma liftRes_bind_ok {S A B} (r : Res A) (k : A -> M S B) (s : S) (b : B) :
  result ((x <- liftRes r;; k x) s) = Ok b ->
  exists a, r = Ok a /\ result (k a s) = Ok b.
Proof.
  unfold bind, liftRes; cbn. destruct r as [a|e]; cbn; [|discriminate].
  intros R. now exists a.
Qed.

Lemma liftRes_bind_err {S A B} (k : A -> M S B) (s : S) (e : Error) :
  (x <- liftRes (Err e);; k x) s = mkOutcome s [] (Err e).
Proof. reflexivity. Qed.

Lemma on_new_ok {T A} (obj : T) (m : M T A) (v : T) :
  result (on_new obj m tt) = Ok v -> v = final (m obj).
Proof.
  unfold on_new; cbn. destruct (result (m obj)); [|discriminate].
  now intros [= <-].
Qed.

Ltac case_results :=
  repeat match goal with
    | |- context [match ?x with Ok _ => _ | Err _ => _ end] =>
        destruct x; cbn
    | |- context [match ?x with Some _ => _ | None => _ end] =>
        destruct x; cbn
    end.

Section Options.
Context `{Imports} (browser : Browser).

(** [init] never assigns [this.options]. *)
Lemma AudioNodeVAD_init_keeps_options (this : AudioNodeVAD.t) :
  AudioNodeVAD.options (final (AudioNodeVAD.init browser this))
  = AudioNodeVAD.options this.
Proof.
  unfold AudioNodeVAD.init, bind, external, modify, emit, get; cbn.
  case_results; reflexivity.
Qed.

Lemma MicVAD_init_keeps_options (this : MicVAD.t) :
  MicVAD.options (final (MicVAD.init browser this)) = MicVAD.options this.
Proof.
  unfold MicVAD.init, MicVAD.on_audioNodeVAD, on_field, liftIO, bind,
    external, modify, emit, get, ret; cbn.
  case_results; reflexivity.
Qed.

Lemma AudioNodeVAD_new_options ctx (options : Partial.t) vad :
  result (AudioNodeVAD.new browser ctx options tt) = Ok vad ->
  AudioNodeVAD.options vad = spread defaultRealTimeVADOptions options.
Proof.
  unfold AudioNodeVAD.new. intros R.
  apply liftRes_bind_ok in R as (v0 & C & R).
  apply on_new_ok in R. subst vad.
  rewrite AudioNodeVAD_init_keeps_options.
  unfold AudioNodeVAD.constructor in C.
  destruct (validateOptions _); [|discriminate].
  now injection C as <-.
Qed.

Lemma MicVAD_new_options (options : Partial.t) vad :
  result (MicVAD.new browser options tt) = Ok vad ->
  MicVAD.options vad = spread defaultRealTimeVADOptions options.
Proof.
  unfold MicVAD.new. intros R.
  apply liftRes_bind_ok in R as (v0 & C & R).
  apply on_new_ok in R. subst vad.
  rewrite MicVAD_init_keeps_options.
  unfold MicVAD.constructor in C.
  destruct (validateOptions _); [|discriminate].
  now injection C as <-.
Qed.

Lemma spread_pointwise (defaults : RealTimeVADOptions) (options : Partial.t) :
  pointwise_override (spread defaults options) defaults options.
Proof.
  unfold pointwise_override, overridden.
  destruct options; cbn. unfold override.
  repeat match goal with
    | |- _ /\ _ => split
    | |- match ?x with Some _ => _ | None => _ end => destruct x
    end; reflexivity.
Qed.

End Options.

(** C8: the instance [MicVAD.new(options)] or [AudioNodeVAD.new(ctx,
    options)] resolves to holds the default options overridden field by
    field: a field the caller's object has is taken as given, any other
    keeps its default; the defaults have [stream] undefined and the
    worklet URL [assetPath("vad.worklet.bundle.min.js")]. *)
Theorem new_overrides_defaults_pointwise :
  forall (I : Imports) (browser : Browser) (options : Partial.t),
    (forall vad,
        result (MicVAD.new browser options tt) = Ok vad ->
        pointwise_override (MicVAD.options vad)
                           defaultRealTimeVADOptions options)
    /\ (forall ctx vad,
           result (AudioNodeVAD.new browser ctx options tt) = Ok vad ->
           pointwise_override (AudioNodeVAD.options vad)
                              defaultRealTimeVADOptions options)
    /\ stream defaultRealTimeVADOptions = None
    /\ workletURL defaultRealTimeVADOptions
       = assetPath "vad.worklet.bundle.min.js".
Proof.
  intros I browser options.
  split; [|split; [|split; reflexivity]].
  - intros vad R. rewrite (MicVAD_new_options _ _ R).
    apply spread_pointwise.
  - intros ctx vad R. rewrite (AudioNodeVAD_new_options _ _ _ R).
    apply spread_pointwise.
Qed.

Lemma new_overrides_witness :
  match result (MicVAD.new (H := Scenario.imports Scenario.script)
                           Scenario.browser Scenario.custom tt) with
  | Ok vad =>
      pointwise_override
        (MicVAD.options vad)
        (@defaultRealTimeVADOptions (Scenario.imports Scenario.script))
        Scenario.custom
  | Err _ => False
  end.
Proof.
  pose proof (proj1 (@new_overrides_defaults_pointwise
                       (Scenario.imports Scenario.script)
                       Scenario.browser Scenario.custom)) as P.
  destruct (result (MicVAD.new Scenario.browser Scenario.custom tt))
    as [vad|e] eqn:R.
  - apply P. reflexivity.
  - assert (returns (result (MicVAD.new (H := Scenario.imports Scenario.script)
                                       Scenario.browser Scenario.custom tt))
            = true) as K by reflexivity.
    rewrite R in K. discriminate K.
Defined.

(** ** Pause and resume *)

Section PauseStart.
Context `{Imports}.





End PauseStart.



(** ** Validation of the configuration *)

(** A threshold below 0 or above 1 fails the range test. *)
Lemma outside_fails_range (t : number) :
  outside_unit_interval t -> Segmenter.in_unit_interval t = false.
Proof.
  unfold outside_unit_interval, Segmenter.in_unit_interval,
    SFltb, SFleb, zero, Segmenter.one.
  intros [L|L].
  - destruct t as [s|[]| |[] m e]; try discriminate L; reflexivity.
  - apply andb_false_iff. right.
    destruct t as [s|[]| |[] m e]; try discriminate L; try reflexivity.
    unfold SFcompare in *.
    rewrite (Z.compare_antisym e (-52)) in L.
    destruct (e ?= -52) eqn:C; try discriminate L; try reflexivity.
    pose proof (Pos.compare_cont_antisym 4503599627370496 m Eq) as A.
    change (CompOpp Eq) with Eq in A.
    rewrite <- A.
    destruct (Pos.compare_cont Eq 4503599627370496 m);
      try discriminate L; reflexivity.
Qed.

(** Modelled validation: a configuration that breaks a constraint is
    refused with a [ConfigError] whose field breaks one. *)
Lemma validateOptions_refuses (o : FrameProcessorOptions) :
  violates o ->
  exists field,
    Segmenter.validateOptions o = Err (ConfigError field)
    /\ offending o field.
Proof.
  intros V. unfold Segmenter.validateOptions, offending.
  destruct (Segmenter.in_unit_interval (positiveSpeechThreshold o)) eqn:P;
    cbn; [|eexists; split; [reflexivity|]; tauto].
  destruct (Segmenter.in_unit_interval (negativeSpeechThreshold o)) eqn:N;
    cbn; [|eexists; split; [reflexivity|]; tauto].
  destruct (SFltb (positiveSpeechThreshold o) (negativeSpeechThreshold o))
    eqn:O; [eexists; split; [reflexivity|]; tauto|].
  destruct (frameSamples o <=? 0) eqn:F;
    [eexists; split; [reflexivity|]; apply Z.leb_le in F; tauto|].
  destruct (redemptionFrames o <? 0) eqn:R;
    [eexists; split; [reflexivity|]; apply Z.ltb_lt in R; tauto|].
  destruct (preSpeechPadFrames o <? 0) eqn:Pd;
    [eexists; split; [reflexivity|]; apply Z.ltb_lt in Pd; tauto|].
  destruct (minSpeechFrames o <=? 0) eqn:Mi;
    [eexists; split; [reflexivity|]; apply Z.leb_le in Mi; tauto|].
  destruct (maxSpeechFrames o <? minSpeechFrames o) eqn:Ma;
    [eexists; split; [reflexivity|]; apply Z.ltb_lt in Ma; tauto|].
  exfalso.
  apply Z.leb_gt in F, Mi. apply Z.ltb_ge in Ma.
  destruct V as [V|[V|[V|[V|[V|V]]]]];
    try (apply outside_fails_range in V); try congruence; lia.
Qed.

(** C5: with the validation of the specification, constructing a [MicVAD]
    or an [AudioNodeVAD] with a configuration that has a threshold outside
    [0,1], the negative threshold above the positive one, [frameSamples] or
    [minSpeechFrames] not positive, or [maxSpeechFrames] below
    [minSpeechFrames], throws a [ConfigError] naming a field that breaks a
    constraint; [new] then throws the same error before [init] runs, with
    no effect at all. *)
Theorem invalid_configuration_fails_in_constructor :
  forall (ModelState : Type)
         (infer : Float32Array -> ModelState
                  -> ModelState * option SpeechProbabilities)
         (resetState : ModelState -> ModelState * bool)
         (reading : Segmenter.PadReading) (delivering : bool)
         (load : ModelFetcher -> Res ModelState)
         (defaults : FrameProcessorOptions) (fetcher : ModelFetcher)
         (asset : string -> string),
    let I := spec_imports infer resetState reading delivering load defaults
                          fetcher asset in
    forall options : RealTimeVADOptions,
      violates options ->
      exists field,
        offending options field
        /\ @MicVAD.constructor I options = Err (ConfigError field)
        /\ (forall ctx,
               @AudioNodeVAD.constructor I ctx options
               = Err (ConfigError field))
        /\ (forall browser given,
               spread (@defaultRealTimeVADOptions I) given = options ->
               @MicVAD.new I browser given tt
               = mkOutcome tt [] (Err (ConfigError field))
               /\ forall ctx,
                   @AudioNodeVAD.new I browser ctx given tt
                   = mkOutcome tt [] (Err (ConfigError field))).
Proof.
  intros MS infer resetState reading delivering load defaults fetcher asset
    I options V.
  destruct (validateOptions_refuses V) as (field & E & O).
  exists field. split; [exact O|].
  assert (@MicVAD.constructor I options = Err (ConfigError field)) as Cm.
  { unfold MicVAD.constructor. cbn. now rewrite E. }
  assert (forall ctx, @AudioNodeVAD.constructor I ctx options
                      = Err (ConfigError field)) as Ca.
  { intros ctx. unfold AudioNodeVAD.constructor. cbn. now rewrite E. }
  split; [exact Cm|]. split; [exact Ca|].
  intros browser given S. split; [|intros ctx].
  - unfold MicVAD.new. rewrite S, Cm. apply liftRes_bind_err.
  - unfold AudioNodeVAD.new. rewrite S, Ca. apply liftRes_bind_err.
Qed.

Lemma invalid_configuration_witness :
  exists field,
    offending (spread (@defaultRealTimeVADOptions
                         (Scenario.imports Scenario.script))
                      Scenario.too_short) field
    /\ MicVAD.new (H := Scenario.imports Scenario.script)
                  Scenario.browser Scenario.too_short tt
       = mkOutcome tt [] (Err (ConfigError field)).
Proof.
  destruct (@invalid_configuration_fails_in_constructor
              Scenario.Replay Scenario.infer Scenario.resetState
              Segmenter.PadBeforePush true (fun _ => Ok Scenario.script)
              Scenario.config (ModelFetcherId 0)
              (fun name => "/" ++ name)%string
              (spread (@defaultRealTimeVADOptions
                         (Scenario.imports Scenario.script))
                      Scenario.too_short))
    as (field & O & Cm & Ca & N).
  - unfold violates. cbn. lia.
  - exists field. split; [exact O|].
    exact (proj1 (N Scenario.browser Scenario.too_short eq_refl)).
Defined.

(** In the scenario the field named is [maxSpeechFrames]. *)
Lemma too_short_names_maxSpeechFrames :
  MicVAD.new (H := Scenario.imports Scenario.script)
             Scenario.browser Scenario.too_short tt
  = mkOutcome tt [] (Err (ConfigError "maxSpeechFrames")).
Proof. reflexivity. Qed.

(** ** The worked example of the specification *)

Ltac fifteen frames :=
  do 15 (destruct frames as [|?f frames]; [discriminate|]);
  destruct frames; [|discriminate].

Ltac lengths :=
  repeat match goal with
    | F : Forall _ (_ :: _) |- _ => inversion F; subst; clear F
    | F : Forall _ [] |- _ => clear F
    end.

(** C6: with the example's configuration the specification's frame
    processor, fed fifteen audible frames of 480 samples for which the
    model answers the example's probabilities, emits [SpeechStart] on frame
    2, [SpeechEnd] on frame 12 and nothing on any other frame; the audio of
    [SpeechEnd] has 5760 samples.  This holds for both readings of the pad
    frames, whatever the samples and the [notSpeech] values are. *)
Theorem worked_example :
  forall (reading : Segmenter.PadReading) (notSpeech : nat -> number)
         (frames : list Float32Array),
    List.length frames = 15%nat ->
    Forall (fun f => List.length f = 480%nat) frames ->
    exists audio : Float32Array,
      Scenario.events
        (snd (Segmenter.feed Scenario.infer Scenario.resetState reading
                (map Scenario.audible frames)
                (Segmenter.create (Scenario.probabilities notSpeech)
                                  Scenario.config)))
      = [Ok None; Ok None; Ok (Some Segmenter.EvSpeechStart);
         Ok None; Ok None; Ok None; Ok None; Ok None; Ok None; Ok None;
         Ok None; Ok None; Ok (Some (Segmenter.EvSpeechEnd audio));
         Ok None; Ok None]
      /\ Z.of_nat (List.length audio) = (1 + 11) * 480.
Proof.
  intros reading notSpeech frames L F.
  fifteen frames. lengths.
  destruct reading.
  - exists (f0 ++ f1 ++ f2 ++ f3 ++ f4 ++ f5 ++ f6 ++ f7 ++ f8 ++ f9
            ++ f10 ++ f11 ++ []).
    split; [reflexivity|].
    repeat rewrite length_app.
    repeat match goal with
      | E : List.length _ = _ |- _ => rewrite E; clear E
      end.
    reflexivity.
  - exists (f1 ++ f1 ++ f2 ++ f3 ++ f4 ++ f5 ++ f6 ++ f7 ++ f8 ++ f9
            ++ f10 ++ f11 ++ []).
    split; [reflexivity|].
    repeat rewrite length_app.
    repeat match goal with
      | E : List.length _ = _ |- _ => rewrite E; clear E
      end.
    reflexivity.
Qed.

Lemma worked_example_witness :
  exists audio : Float32Array,
    Scenario.events
      (snd (Segmenter.feed Scenario.infer Scenario.resetState
              Segmenter.PadBeforePush
              (map Scenario.audible (repeat Scenario.tone 15))
              (Segmenter.create Scenario.script Scenario.config)))
    = [Ok None; Ok None; Ok (Some Segmenter.EvSpeechStart);
       Ok None; Ok None; Ok None; Ok None; Ok None; Ok None; Ok None;
       Ok None; Ok None; Ok (Some (Segmenter.EvSpeechEnd audio));
       Ok None; Ok None]
    /\ Z.of_nat (List.length audio) = (1 + 11) * 480.
Proof.
  apply (@worked_example Segmenter.PadBeforePush (fun _ => zero)
                         (repeat Scenario.tone 15)).
  - reflexivity.
  - repeat constructor.
Defined.

(** * Further properties of the wrapper *)

Lemma liftRes_bind_ok_eq {S A B} (a : A) (k : A -> M S B) (s : S) :
  (x <- liftRes (Ok a);; k x) s = k a s.
Proof. unfold bind, liftRes; cbn. now destruct (k a s). Qed.

Lemma frameProcessorOptions_eta (o : FrameProcessorOptions) :
  {| frameSamples := frameSamples o;
     positiveSpeechThreshold := positiveSpeechThreshold o;
     negativeSpeechThreshold := negativeSpeechThreshold o;
     redemptionFrames := redemptionFrames o;
     preSpeechPadFrames := preSpeechPadFrames o;
     minSpeechFrames := minSpeechFrames o;
     maxSpeechFrames := maxSpeechFrames o |} = o.
Proof. now destruct o. Qed.

Section Init.
Context `{Imports} (browser : Browser).

(** [AudioNodeVAD.init], step by step: each answer of the environment
    either ends the call with its error or lets the next step run. *)
Lemma AudioNodeVAD_init_cases (this : AudioNodeVAD.t) :
  let url := workletURL (AudioNodeVAD.options this) in
  let size := frameSamples (AudioNodeVAD.options this) in
  let fetcher := override imported_modelFetcher
                          (modelFetcher (AudioNodeVAD.options this)) in
  let c := AudioNodeVAD.ctx this in
  let added := EAddModule c url in
  let made := ENewAudioWorkletNode c "vad-helper-worklet" size in
  AudioNodeVAD.init browser this
  = match audioWorklet_addModule browser c url with
    | Err e => mkOutcome this [added] (Err e)
    | Ok _ =>
        match new_AudioWorkletNode browser c "vad-helper-worklet" size with
        | Err e => mkOutcome this [added; made] (Err e)
        | Ok node =>
            match Silero_new fetcher with
            | Err e =>
                mkOutcome (AudioNodeVAD.set_entryNode node this)
                          [added; made; ESileroNew fetcher] (Err e)
            | Ok model =>
                mkOutcome
                  (AudioNodeVAD.Build_t
                     c (AudioNodeVAD.options this)
                     (Some (FrameProcessor_new
                              model
                              (frameProcessorOptions
                                 (AudioNodeVAD.options this))))
                     (Some node))
                  [added; made; ESileroNew fetcher; ESetOnMessage node]
                  (Ok tt)
            end
        end
    end.
Proof.
  cbv zeta.
  unfold AudioNodeVAD.init, bind, external, modify, emit, get; cbn.
  destruct (audioWorklet_addModule _ _ _); cbn; [|reflexivity].
  destruct (new_AudioWorkletNode _ _ _ _); cbn; [|reflexivity].
  destruct (Silero_new _); cbn; [|reflexivity].
  now rewrite frameProcessorOptions_eta.
Qed.

(** [AudioNodeVAD.new]: validation, then [init] on the new object. *)
Lemma AudioNodeVAD_new_cases (c : AudioContext) (given : Partial.t) :
  AudioNodeVAD.new browser c given tt
  = match validateOptions (spread defaultRealTimeVADOptions given) with
    | Err e => mkOutcome tt [] (Err e)
    | Ok _ =>
        let o := AudioNodeVAD.init browser
                   (AudioNodeVAD.Build_t
                      c (spread defaultRealTimeVADOptions given) None None) in
        mkOutcome tt (emitted o)
                  match result o with
                  | Ok _ => Ok (final o)
                  | Err e => Err e
                  end
    end.
Proof.
  unfold AudioNodeVAD.new, AudioNodeVAD.constructor.
  destruct (validateOptions _); [|reflexivity].
  now rewrite liftRes_bind_ok_eq.
Qed.

(** [MicVAD.init], step by step. *)
Lemma MicVAD_init_cases (this : MicVAD.t) :
  let o := MicVAD.options this in
  let asked := EGetUserMedia (requested_constraints o) in
  let after (s : MediaStream) (before : list Effect) :=
    match new_AudioContext browser with
    | Err e =>
        mkOutcome (MicVAD.set_stream s this)
                  (before ++ [ENewAudioContext]) (Err e)
    | Ok c =>
        let this2 := MicVAD.set_audioContext c (MicVAD.set_stream s this) in
        let made := [ENewAudioContext; ENewMediaStreamAudioSourceNode c s] in
        match new_MediaStreamAudioSourceNode browser c s with
        | Err e => mkOutcome this2 (before ++ made) (Err e)
        | Ok source =>
            let n := AudioNodeVAD.new browser c (as_partial o) tt in
            match result n with
            | Err e => mkOutcome this2 (before ++ made ++ emitted n) (Err e)
            | Ok vad =>
                let r := AudioNodeVAD.receive browser source vad in
                mkOutcome (MicVAD.set_audioNodeVAD (final r)
                             (MicVAD.set_audioNodeVAD vad this2))
                          (before ++ made ++ emitted n ++ emitted r)
                          (result r)
            end
        end
    end in
  MicVAD.init browser this
  = match stream o with
    | Some s => after s []
    | None =>
        match getUserMedia browser (requested_constraints o) with
        | Err e => mkOutcome this [asked] (Err e)
        | Ok s => after s [asked]
        end
    end.
Proof.
  cbv zeta.
  unfold MicVAD.init, MicVAD.on_audioNodeVAD, on_field, liftIO, bind,
    external, modify, emit, get, ret, requested_constraints.
  cbn -[AudioNodeVAD.new AudioNodeVAD.receive].
  destruct (stream (MicVAD.options this)) as [s|];
    cbn -[AudioNodeVAD.new AudioNodeVAD.receive].
  - destruct (new_AudioContext browser) as [c|e];
      cbn -[AudioNodeVAD.new AudioNodeVAD.receive]; [|reflexivity].
    destruct (new_MediaStreamAudioSourceNode browser c s);
      cbn -[AudioNodeVAD.new AudioNodeVAD.receive]; [|reflexivity].
    destruct (result (AudioNodeVAD.new browser c _ tt));
      cbn -[AudioNodeVAD.new AudioNodeVAD.receive]; reflexivity.
  - destruct (getUserMedia browser _) as [s|e];
      cbn -[AudioNodeVAD.new AudioNodeVAD.receive]; [|reflexivity].
    destruct (new_AudioContext browser) as [c|e];
      cbn -[AudioNodeVAD.new AudioNodeVAD.receive]; [|reflexivity].
    destruct (new_MediaStreamAudioSourceNode browser c s);
      cbn -[AudioNodeVAD.new AudioNodeVAD.receive]; [|reflexivity].
    destruct (result (AudioNodeVAD.new browser c _ tt));
      cbn -[AudioNodeVAD.new AudioNodeVAD.receive]; reflexivity.
Qed.

(** [MicVAD.new]: validation, then [init] on the new object. *)
Lemma MicVAD_new_cases (given : Partial.t) :
  MicVAD.new browser given tt
  = match validateOptions (spread defaultRealTimeVADOptions given) with
    | Err e => mkOutcome tt [] (Err e)
    | Ok _ =>
        let o := MicVAD.init browser
                   (MicVAD.Build_t
                      (spread defaultRealTimeVADOptions given)
                      None None None false) in
        mkOutcome tt (emitted o)
                  match result o with
                  | Ok _ => Ok (final o)
                  | Err e => Err e
                  end
    end.
Proof.
  unfold MicVAD.new, MicVAD.constructor.
  destruct (validateOptions _); [|reflexivity].
  now rewrite liftRes_bind_ok_eq.
Qed.

Lemma AudioNodeVAD_receive_cases (node : AudioNode) (this : AudioNodeVAD.t) :
  AudioNodeVAD.receive browser node this
  = match AudioNodeVAD.entryNode this with
    | Some entry =>
        mkOutcome this [EConnect node entry] (connect browser node entry)
    | None => mkOutcome this [] (Err (TypeError "entryNode"))
    end.
Proof.
  unfold AudioNodeVAD.receive, bind, get; cbn.
  destruct (AudioNodeVAD.entryNode this); cbn; [|reflexivity].
  unfold external. now destruct (connect browser node a).
Qed.

(** A full options object survives the merge with the defaults. *)
Lemma spread_as_partial (o : RealTimeVADOptions) :
  spread defaultRealTimeVADOptions (as_partial o) = o.
Proof.
  destruct o as [[] [] a w s m]. unfold spread, as_partial; cbn.
  now destruct a, m.
Qed.

End Init.

(** Walks through [new] and [init] along the answers of the environment. *)
Ltac innermost x :=
  lazymatch x with
  | context [match _ with Ok _ => _ | Err _ => _ end] => fail
  | context [match _ with Some _ => _ | None => _ end] => fail
  | _ => idtac
  end.

Ltac walk :=
  repeat (cbv zeta;
          cbn [final emitted result MicVAD.options AudioNodeVAD.options
               AudioNodeVAD.ctx AudioNodeVAD.entryNode];
          first
            [ rewrite MicVAD_new_cases
            | rewrite MicVAD_init_cases
            | rewrite AudioNodeVAD_new_cases
            | rewrite AudioNodeVAD_init_cases
            | rewrite AudioNodeVAD_receive_cases
            | rewrite spread_as_partial
            | match goal with
              | |- context [match ?x with Ok _ => _ | Err _ => _ end] =>
                  innermost x; destruct x eqn:?
              end
            | match goal with
              | |- context [match ?x with Some _ => _ | None => _ end] =>
                  innermost x; destruct x eqn:?
              end ]).

(** ** Acquiring the microphone *)

(** X1: when the caller supplies a stream, [MicVAD.new] never calls
    [getUserMedia], and the instance it resolves to holds that stream. *)
Theorem stream_given_skips_getUserMedia :
  forall (I : Imports) (browser : Browser) (given : Partial.t)
         (s : MediaStream),
    Partial.stream given = Some (Some s) ->
    let o := MicVAD.new browser given tt in
    media_requests (emitted o) = []
    /\ forall mic, result o = Ok mic -> MicVAD.stream mic = Some s.
Proof.
  intros I browser given s G o. subst o.
  rewrite MicVAD_new_cases.
  destruct (validateOptions _); [|split; [reflexivity|discriminate]].
  cbv zeta. rewrite MicVAD_init_cases. cbv zeta.
  cbn [MicVAD.options stream spread]. rewrite G. cbn [override].
  walk; cbn; (split; [reflexivity|]); intros mic [= <-]; reflexivity.
Qed.

(** X2: when the caller supplies no stream and the options are valid,
    [MicVAD.new] asks [getUserMedia] once, for one channel with echo
    cancellation, automatic gain control and noise suppression on top of
    the caller's additional constraints; if that request is rejected,
    [new] rejects with the same error right there, before an
    [AudioContext] or anything else is created. *)
Theorem microphone_is_requested_once :
  forall (I : Imports) (browser : Browser) (given : Partial.t),
    Partial.stream given = None \/ Partial.stream given = Some None ->
    validateOptions (spread defaultRealTimeVADOptions given) = Ok tt ->
    let asked := {|
      additional :=
        override [] (override None (Partial.additionalAudioConstraints given));
      channelCount := 1;
      echoCancellation := true;
      autoGainControl := true;
      noiseSuppression := true
    |} in
    media_requests (emitted (MicVAD.new browser given tt)) = [asked]
    /\ forall e,
        getUserMedia browser asked = Err e ->
        MicVAD.new browser given tt
        = mkOutcome tt [EGetUserMedia asked] (Err e).
Proof.
  intros I browser given G V asked. subst asked.
  rewrite MicVAD_new_cases, V. cbv zeta.
  rewrite MicVAD_init_cases. cbv zeta.
  unfold requested_constraints.
  cbn [MicVAD.options stream spread additionalAudioConstraints
       defaultRealTimeVADOptions].
  assert (override None (Partial.stream given) = None) as ->
      by now destruct G as [-> | ->].
  split.
  - walk; reflexivity.
  - intros e R. rewrite R. reflexivity.
Qed.

(** ** What [new] leaves behind *)

(** X3: the [MicVAD] that [MicVAD.new] resolves to has its stream, its
    [AudioContext] and its [AudioNodeVAD] in place and is not listening
    yet; the [AudioNodeVAD] lives in that [AudioContext], has the very
    options of the [MicVAD], and has its frame processor and its entry
    node. *)
Theorem new_mic_is_fully_wired :
  forall (I : Imports) (browser : Browser) (given : Partial.t)
         (mic : MicVAD.t),
    result (MicVAD.new browser given tt) = Ok mic ->
    MicVAD.options mic = spread defaultRealTimeVADOptions given
    /\ MicVAD.listening mic = false
    /\ exists c s vad fp entry,
        MicVAD.audioContext mic = Some c
        /\ MicVAD.stream mic = Some s
        /\ MicVAD.audioNodeVAD mic = Some vad
        /\ AudioNodeVAD.ctx vad = c
        /\ AudioNodeVAD.options vad = MicVAD.options mic
        /\ AudioNodeVAD.frameProcessor vad = Some fp
        /\ AudioNodeVAD.entryNode vad = Some entry.
Proof.
  intros I browser given mic.
  walk; cbn; try discriminate; intros [= <-]; cbn;
    (split; [reflexivity|]); (split; [reflexivity|]);
    repeat eexists.
Qed.

(** X4: in every run of [MicVAD.new] the microphone source is connected at
    most once, as the last thing [new] does, and to the node whose port
    got the message handler before: no audio can reach the worklet before
    the handler is there. *)
Theorem source_is_connected_last :
  forall (I : Imports) (browser : Browser) (given : Partial.t),
    let es := emitted (MicVAD.new browser given tt) in
    connections es = []
    \/ exists before source entry,
        es = before ++ [EConnect source entry]
        /\ connections before = []
        /\ handled_ports before = [entry].
Proof.
  intros I browser given es. subst es.
  walk; cbn;
    try (left; reflexivity);
    right;
    match goal with
    | |- exists b s n, ?l = _ /\ _ =>
        exists (removelast l)
    end; cbn; do 2 eexists; repeat split.
Qed.

(** X5: a model fetcher supplied by the caller is the only one [MicVAD.new]
    ever hands to [Silero.new]; without one, only the imported fetcher
    is. *)
Theorem supplied_fetcher_is_used :
  forall (I : Imports) (browser : Browser) (given : Partial.t),
    let chosen :=
      match Partial.modelFetcher given with
      | Some (Some f) => f
      | Some None | None => imported_modelFetcher
      end in
    forall f,
      In f (fetchers (emitted (MicVAD.new browser given tt))) ->
      f = chosen.
Proof.
  intros I browser given chosen f. subst chosen.
  walk; cbn; try tauto;
    repeat match goal with
      | E : Partial.modelFetcher given = _ |- _ => rewrite E; clear E
      end;
    cbn; intros [<-|[]]; reflexivity.
Qed.

(** X6: whatever error [validateOptions] throws on the merged options,
    [MicVAD.new] and [AudioNodeVAD.new] reject with it and have touched
    nothing: no module is added, no node or context created, no model
    loaded. *)
Theorem validation_failure_stops_new :
  forall (I : Imports) (browser : Browser) (given : Partial.t) (e : Error),
    validateOptions (spread defaultRealTimeVADOptions given) = Err e ->
    MicVAD.new browser given tt = mkOutcome tt [] (Err e)
    /\ forall ctx,
        AudioNodeVAD.new browser ctx given tt = mkOutcome tt [] (Err e).
Proof.
  intros I browser given e V. split; [|intros ctx].
  - now rewrite MicVAD_new_cases, V.
  - now rewrite AudioNodeVAD_new_cases, V.
Qed.

(** ** [AudioNodeVAD.init] *)

(** X7: when the worklet module loads, the worklet node is created and the
    model loads, [init] builds the frame processor from that model and
    from exactly the seven frame-processor options the instance holds,
    keeps the worklet node as entry node, and installs the port handler
    last. *)
Theorem init_builds_frame_processor :
  forall (I : Imports) (browser : Browser) (this : AudioNodeVAD.t)
         (node : AudioNode) (model : Silero),
    let o := AudioNodeVAD.options this in
    let c := AudioNodeVAD.ctx this in
    let fetcher := override imported_modelFetcher (modelFetcher o) in
    audioWorklet_addModule browser c (workletURL o) = Ok tt ->
    new_AudioWorkletNode browser c "vad-helper-worklet" (frameSamples o)
    = Ok node ->
    Silero_new fetcher = Ok model ->
    AudioNodeVAD.init browser this
    = mkOutcome
        (AudioNodeVAD.Build_t
           c o (Some (FrameProcessor_new model (frameProcessorOptions o)))
           (Some node))
        [EAddModule c (workletURL o);
         ENewAudioWorkletNode c "vad-helper-worklet" (frameSamples o);
         ESileroNew fetcher;
         ESetOnMessage node]
        (Ok tt).
Proof.
  intros I browser this node model o c fetcher A N S.
  subst o c fetcher.
  rewrite AudioNodeVAD_init_cases. cbv zeta. now rewrite A, N, S.
Qed.

(** X8: [init] installs the port handler exactly when it succeeds, and
    then the frame processor and the entry node are defined: a frame can
    only arrive at an instance that has a frame processor.  When [init]
    fails, the frame processor is left as it was. *)
Theorem handler_needs_frame_processor :
  forall (I : Imports) (browser : Browser) (this : AudioNodeVAD.t),
    let o := AudioNodeVAD.init browser this in
    (result o = Ok tt
     /\ exists fp node,
         AudioNodeVAD.frameProcessor (final o) = Some fp
         /\ AudioNodeVAD.entryNode (final o) = Some node
         /\ handled_ports (emitted o) = [node])
    \/ (exists e, result o = Err e)
       /\ handled_ports (emitted o) = []
       /\ AudioNodeVAD.frameProcessor (final o)
          = AudioNodeVAD.frameProcessor this.
Proof.
  intros I browser this o. subst o.
  walk; cbn;
    try (right; split; [eexists; reflexivity|split; reflexivity]).
  left. split; [reflexivity|]. do 2 eexists. repeat split.
Qed.

(** ** Before [init] *)

(** X9: a [MicVAD] that came out of the constructor and was not
    initialised is not listening, and [pause] and [start] on it throw a
    [TypeError] without any effect; in particular [start] does not set
    [listening]. *)
Theorem mic_methods_before_init_throw :
  forall (I : Imports) (options : RealTimeVADOptions) (mic : MicVAD.t),
    MicVAD.constructor options = Ok mic ->
    MicVAD.listening mic = false
    /\ MicVAD.pause mic = mkOutcome mic [] (Err (TypeError "audioNodeVAD"))
    /\ MicVAD.start mic = mkOutcome mic [] (Err (TypeError "audioNodeVAD")).
Proof.
  intros I options mic. unfold MicVAD.constructor.
  destruct (validateOptions options); [|discriminate].
  intros [= <-]. repeat split.
Qed.


(** ** Frames that fail *)

(** X11: when the frame processor rejects a frame, [processFrame] rejects
    with the same error and calls no callback; what the failed call did
    to the frame processor is kept. *)
Theorem rejected_frame_calls_nothing :
  forall (I : Imports) (this : AudioNodeVAD.t) (samples : Float32Array)
         (fp fp' : FrameProcessor) (e : Error),
    AudioNodeVAD.frameProcessor this = Some fp ->
    FrameProcessor_process (AudioNodeVAD.frame_of samples) fp
    = (fp', Err e) ->
    let o := AudioNodeVAD.processFrame samples this in
    result o = Err e
    /\ emitted o = []
    /\ final o = AudioNodeVAD.set_frameProcessor fp' this.
Proof.
  intros I this samples fp fp' e E P o. subst o.
  rewrite (processFrame_rejected this samples E P). repeat split.
Qed.

Lemma words_of_bytes_length (n : nat) :
  forall l : list byte,
    (List.length l <= n)%nat ->
    Z.of_nat (List.length l) mod 4 = 0 ->
    Z.of_nat (List.length l) = 4 * Z.of_nat (List.length (words_of_bytes l)).
Proof.
  induction n as [|n IH]; intros l B A.
  - destruct l; [reflexivity|cbn in B; lia].
  - destruct l as [|b0 [|b1 [|b2 [|b3 rest]]]];
      try reflexivity; try (cbn in A; discriminate A).
    change (words_of_bytes (b0 :: b1 :: b2 :: b3 :: rest))
      with (word_of_bytes b0 b1 b2 b3 :: words_of_bytes rest).
    cbn [List.length] in *.
    assert (Z.of_nat (List.length rest) mod 4 = 0) as A'.
    { replace (Z.of_nat (S (S (S (S (List.length rest))))))
        with (Z.of_nat (List.length rest) + 1 * 4) in A by lia.
      now rewrite Z.mod_add in A by lia. }
    specialize (IH rest ltac:(lia) A'). lia.
Qed.

(** X12: an audio-frame message whose buffer length is not a multiple of
    four bytes makes the handler reject with a [RangeError]; the frame
    processor is not asked and nothing changes.  A buffer of [4 n] bytes is
    handed to [processFrame] as a frame of [n] samples. *)
Theorem buffer_length_decides_frame :
  forall (I : Imports) (this : AudioNodeVAD.t) (ev : MessageEvent.t)
         (d : WorkletMessage.t),
    MessageEvent.data ev = Some d ->
    WorkletMessage.message d = TagMessage AudioFrame ->
    let bytes := Z.of_nat (List.length (WorkletMessage.data d)) in
    (bytes mod 4 <> 0 ->
     exists what,
       AudioNodeVAD.onmessage ev this
       = mkOutcome this [] (Err (RangeError what)))
    /\ (bytes mod 4 = 0 ->
        exists frame,
          AudioNodeVAD.onmessage ev this
          = AudioNodeVAD.processFrame frame this
          /\ bytes = 4 * Z.of_nat (List.length frame)).
Proof.
  intros I this ev d E T bytes. subst bytes.
  unfold AudioNodeVAD.onmessage. rewrite E. cbn. rewrite T.
  unfold new_Float32Array. split; intros A.
  - apply Z.eqb_neq in A. rewrite A. eexists. reflexivity.
  - pose proof A as A'. apply Z.eqb_eq in A'. rewrite A'.
    eexists. split; [apply liftRes_bind_ok_eq|].
    rewrite length_map. now apply (@words_of_bytes_length _ _ (le_n _)).
Qed.

(** ** Any sequence of calls *)

Section Sequences.
Context `{Imports} (browser : Browser).

Lemma processFrame_final (this : AudioNodeVAD.t) (samples : Float32Array) :
  final (AudioNodeVAD.processFrame samples this) = this
  \/ exists fp fp',
      AudioNodeVAD.frameProcessor this = Some fp
      /\ final (AudioNodeVAD.processFrame samples this)
         = AudioNodeVAD.set_frameProcessor fp' this.
Proof.
  destruct (AudioNodeVAD.frameProcessor this) as [fp|] eqn:E.
  - right. exists fp.
    destruct (FrameProcessor_process (AudioNodeVAD.frame_of samples) fp)
      as [fp' [r|e]] eqn:P; exists fp'; split; trivial.
    + now destruct (processFrame_resolved this samples E P).
    + now rewrite (processFrame_rejected this samples E P).
  - left. now rewrite (processFrame_uninitialised this samples E).
Qed.

(** The handler does nothing, refuses the buffer, or is [processFrame] on
    some frame. *)
Lemma onmessage_cases (ev : MessageEvent.t) (this : AudioNodeVAD.t) :
  AudioNodeVAD.onmessage ev this = mkOutcome this [] (Ok tt)
  \/ (exists e, AudioNodeVAD.onmessage ev this = mkOutcome this [] (Err e))
  \/ exists frame,
      AudioNodeVAD.onmessage ev this = AudioNodeVAD.processFrame frame this.
Proof.
  unfold AudioNodeVAD.onmessage.
  destruct (MessageEvent.data ev) as [d|]; cbn; [|now left].
  destruct (WorkletMessage.message d) as [|[]|]; try now left.
  destruct (new_Float32Array (WorkletMessage.data d)) as [frame|e].
  - right; right. exists frame. apply liftRes_bind_ok_eq.
  - right; left. exists e. reflexivity.
Qed.

Lemma same_wiring_refl (a : AudioNodeVAD.t) : same_wiring a a.
Proof. unfold same_wiring. tauto. Qed.

Lemma same_wiring_trans (a b c : AudioNodeVAD.t) :
  same_wiring a b -> same_wiring b c -> same_wiring a c.
Proof.
  unfold same_wiring. intros (-> & -> & -> & F) (-> & -> & -> & G). tauto.
Qed.

Lemma processFrame_same_wiring (this : AudioNodeVAD.t) samples :
  same_wiring (final (AudioNodeVAD.processFrame samples this)) this.
Proof.
  destruct (processFrame_final this samples) as [->|(fp & fp' & E & ->)].
  - apply same_wiring_refl.
  - unfold same_wiring; cbn. rewrite E. repeat split; discriminate.
Qed.

Lemma call_same_wiring (c : Call) (this : AudioNodeVAD.t) :
  same_wiring (final (call browser c this)) this.
Proof.
  destruct c as [| |node|samples|ev]; cbn [call].
  - unfold AudioNodeVAD.pause, AudioNodeVAD.on_frameProcessor, on_field.
    destruct (AudioNodeVAD.frameProcessor this) eqn:E; cbn;
      [|apply same_wiring_refl].
    unfold same_wiring; cbn. rewrite E. repeat split; discriminate.
  - unfold AudioNodeVAD.start, AudioNodeVAD.on_frameProcessor, on_field.
    destruct (AudioNodeVAD.frameProcessor this) eqn:E; cbn;
      [|apply same_wiring_refl].
    unfold same_wiring; cbn. rewrite E. repeat split; discriminate.
  - rewrite AudioNodeVAD_receive_cases.
    destruct (AudioNodeVAD.entryNode this); apply same_wiring_refl.
  - apply processFrame_same_wiring.
  - destruct (onmessage_cases ev this) as [->|[[e ->]|[frame ->]]];
      try apply same_wiring_refl.
    apply processFrame_same_wiring.
Qed.

(** The callbacks one call invokes: none, or for a call that carries a
    frame the observation and the dispatch of some result. *)
Lemma call_invocations (c : Call) (this : AudioNodeVAD.t) :
  invocations (emitted (call browser c this)) = []
  \/ carries_frame c = true
     /\ exists r,
         invocations (emitted (call browser c this))
         = observed (AudioNodeVAD.options this) r
           ++ dispatched (AudioNodeVAD.options this) r.
Proof.
  destruct c as [| |node|samples|ev]; cbn [call carries_frame].
  - left. unfold AudioNodeVAD.pause, AudioNodeVAD.on_frameProcessor, on_field.
    now destruct (AudioNodeVAD.frameProcessor this).
  - left. unfold AudioNodeVAD.start, AudioNodeVAD.on_frameProcessor, on_field.
    now destruct (AudioNodeVAD.frameProcessor this).
  - left. rewrite AudioNodeVAD_receive_cases.
    now destruct (AudioNodeVAD.entryNode this).
  - destruct (processFrame_invocations this samples) as [E|E];
      [now left|right; now split].
  - destruct (onmessage_cases ev this) as [->|[[e ->]|[frame ->]]];
      try now left.
    destruct (processFrame_invocations this frame) as [E|E];
      [now left|right; now split].
Qed.

End Sequences.

(** X13: no sequence of [pause], [start], [receive], [processFrame] and
    port messages changes the [AudioContext], the options or the entry
    node of an [AudioNodeVAD], and none makes a frame processor appear or
    disappear: after [init] these are fixed. *)
Theorem calls_keep_wiring :
  forall (I : Imports) (browser : Browser) (cs : list Call)
         (this : AudioNodeVAD.t),
    let after := fst (calls browser cs this) in
    AudioNodeVAD.ctx after = AudioNodeVAD.ctx this
    /\ AudioNodeVAD.options after = AudioNodeVAD.options this
    /\ AudioNodeVAD.entryNode after = AudioNodeVAD.entryNode this
    /\ (AudioNodeVAD.frameProcessor after = None
        <-> AudioNodeVAD.frameProcessor this = None).
Proof.
  intros I browser cs. cbv zeta.
  change (forall this, same_wiring (fst (calls browser cs this)) this).
  induction cs as [|c cs IH]; intros this; cbn [calls].
  - apply same_wiring_refl.
  - specialize (IH (final (call browser c this))).
    destruct (calls browser cs (final (call browser c this))) as [t es].
    cbn [fst] in *.
    exact (same_wiring_trans IH (call_same_wiring browser c this)).
Qed.

(** X14: over any sequence of calls, every callback invoked is one of the
    five functions in the options, [onFrameProcessed] is called at most
    once and a lifecycle callback at most once per call that carries a
    frame; [pause], [start] and [receive] call none. *)
Theorem callbacks_only_for_frames :
  forall (I : Imports) (browser : Browser) (cs : list Call)
         (this : AudioNodeVAD.t),
    let es := snd (calls browser cs this) in
    let frames := List.length (filter carries_frame cs) in
    (List.length (observations es) <= frames)%nat
    /\ (List.length (lifecycle_calls es) <= frames)%nat
    /\ forall f c,
        In (f, c) (invocations es) ->
        In f (callbacks_of (AudioNodeVAD.options this)).
Proof.
  intros I browser cs. cbv zeta. unfold observations, lifecycle_calls.
  induction cs as [|c cs IH]; intros this; cbn [calls].
  - cbn. repeat split; try lia; tauto.
  - specialize (IH (final (call browser c this))).
    destruct (call_same_wiring browser c this) as (_ & O & _).
    rewrite O in IH.
    destruct (calls browser cs (final (call browser c this))) as [t es].
    cbn [snd] in *. destruct IH as (Ob & Li & Fn).
    rewrite invocations_app, !filter_app, !length_app.
    destruct (call_invocations browser c this) as [E|(F & r & E)];
      rewrite E; cbn [filter].
    + cbn [List.length app]. repeat split.
      * destruct (carries_frame c); cbn; lia.
      * destruct (carries_frame c); cbn; lia.
      * exact Fn.
    + rewrite F. cbn [List.length]. repeat split.
      * unfold observed, dispatched.
        destruct (probs r), (msg r) as [[]|]; cbn; lia.
      * unfold observed, dispatched.
        destruct (probs r), (msg r) as [[]|]; cbn; lia.
      * intros f k [K|K]%in_app_iff; [|exact (Fn f k K)].
        revert K. unfold observed, dispatched, callbacks_of.
        destruct (probs r), (msg r) as [[]|]; cbn;
          intuition congruence.
Qed.

(** ** The default callbacks *)

(** X15: with the default callbacks, all a frame makes the wrapper write is
    the one debug line of its lifecycle message; the default
    [onFrameProcessed] writes nothing. *)
Theorem default_callbacks_only_log :
  forall (I : Imports) (this : AudioNodeVAD.t) (samples : Float32Array)
         (fp fp' : FrameProcessor) (r : ProcessResult),
    callbacks (AudioNodeVAD.options this)
    = callbacks defaultRealTimeVADOptions ->
    AudioNodeVAD.frameProcessor this = Some fp ->
    FrameProcessor_process (AudioNodeVAD.frame_of samples) fp = (fp', Ok r) ->
    debug_lines (emitted (AudioNodeVAD.processFrame samples this))
    = match msg r with
      | Some SpeechStart => ["Detected speech start"]
      | Some VADMisfire => ["VAD misfire"]
      | Some SpeechEnd => ["Detected speech end"]
      | Some SpeechSegment => ["Detected speech segment"]
      | Some AudioFrame | None => []
      end.
Proof.
  intros I this samples fp fp' r D E P.
  unfold AudioNodeVAD.processFrame, AudioNodeVAD.on_frameProcessor,
    bind, on_field.
  rewrite E, P. cbn. rewrite D.
  destruct (probs r) as [p|], (msg r) as [[]|]; reflexivity.
Qed.

(** ** The flag of a frame, piece by piece *)

(** X16: a frame without samples gets [isEmpty = true], and the flag of two
    runs of samples put together is the conjunction of their flags: one
    zero sample anywhere clears it. *)
Theorem isEmpty_of_concatenation :
  isEmpty (AudioNodeVAD.frame_of []) = true
  /\ forall a b : Float32Array,
      isEmpty (AudioNodeVAD.frame_of (a ++ b))
      = isEmpty (AudioNodeVAD.frame_of a)
        && isEmpty (AudioNodeVAD.frame_of b).
Proof.
  split; [reflexivity|]. intros a b.
  unfold AudioNodeVAD.frame_of, some; cbn.
  now rewrite existsb_app, negb_orb.
Qed.

(** ** The further properties in the scenario *)

Lemma stream_given_witness :
  media_requests
    (emitted (MicVAD.new (H := Scenario.imports Scenario.script)
                         Scenario.browser Session.own_stream tt))
  = [].
Proof.
  exact (proj1 (@stream_given_skips_getUserMedia
                  (Scenario.imports Scenario.script) Scenario.browser
                  Session.own_stream (MediaStreamId 5) eq_refl)).
Defined.

Lemma microphone_denied_witness :
  MicVAD.new (H := Scenario.imports Scenario.script)
             Session.denied Partial.empty tt
  = mkOutcome tt
      [EGetUserMedia {| additional := []; channelCount := 1;
                        echoCancellation := true; autoGainControl := true;
                        noiseSuppression := true |}]
      (Err (Rejected "NotAllowedError")).
Proof.
  exact (proj2 (@microphone_is_requested_once
                  (Scenario.imports Scenario.script) Session.denied
                  Partial.empty (or_introl eq_refl) eq_refl)
               (Rejected "NotAllowedError") eq_refl).
Defined.

Lemma new_mic_witness :
  MicVAD.listening (Scenario.mic Scenario.script) = false
  /\ exists c s vad fp entry,
      MicVAD.audioContext (Scenario.mic Scenario.script) = Some c
      /\ MicVAD.stream (Scenario.mic Scenario.script) = Some s
      /\ MicVAD.audioNodeVAD (Scenario.mic Scenario.script) = Some vad
      /\ AudioNodeVAD.ctx vad = c
      /\ AudioNodeVAD.options vad
         = MicVAD.options (Scenario.mic Scenario.script)
      /\ AudioNodeVAD.frameProcessor vad = Some fp
      /\ AudioNodeVAD.entryNode vad = Some entry.
Proof.
  exact (proj2 (@new_mic_is_fully_wired
                  (Scenario.imports Scenario.script) Scenario.browser
                  Partial.empty (Scenario.mic Scenario.script) eq_refl)).
Defined.

Lemma supplied_fetcher_witness :
  In (ModelFetcherId 9)
     (fetchers
        (emitted (MicVAD.new (H := Scenario.imports Scenario.script)
                             Scenario.browser Session.own_stream tt)))
  /\ ModelFetcherId 9 = ModelFetcherId 9.
Proof.
  split; [left; reflexivity|].
  exact (@supplied_fetcher_is_used
           (Scenario.imports Scenario.script) Scenario.browser
           Session.own_stream (ModelFetcherId 9) (or_introl eq_refl)).
Defined.

Lemma validation_failure_witness :
  MicVAD.new (H := Scenario.imports Scenario.script)
             Scenario.browser Scenario.too_short tt
  = mkOutcome tt [] (Err (ConfigError "maxSpeechFrames")).
Proof.
  exact (proj1 (@validation_failure_stops_new
                  (Scenario.imports Scenario.script) Scenario.browser
                  Scenario.too_short (ConfigError "maxSpeechFrames")
                  eq_refl)).
Defined.

Lemma init_builds_witness :
  AudioNodeVAD.init Scenario.browser Session.fresh_vad
  = mkOutcome
      (Scenario.vad Scenario.script)
      [EAddModule (AudioContextId 0) "/vad.worklet.bundle.min.js";
       ENewAudioWorkletNode (AudioContextId 0) "vad-helper-worklet" 480;
       ESileroNew (ModelFetcherId 0);
       ESetOnMessage (AudioNodeId 1)]
      (Ok tt).
Proof.
  exact (@init_builds_frame_processor
           (Scenario.imports Scenario.script) Scenario.browser
           Session.fresh_vad (AudioNodeId 1) Scenario.script
           eq_refl eq_refl eq_refl).
Defined.

Lemma mic_before_init_witness :
  MicVAD.start Session.fresh_mic
  = mkOutcome Session.fresh_mic [] (Err (TypeError "audioNodeVAD")).
Proof.
  exact (proj2 (proj2 (@mic_methods_before_init_throw
                         (Scenario.imports Scenario.script)
                         (@defaultRealTimeVADOptions
                            (Scenario.imports Scenario.script))
                         Session.fresh_mic eq_refl))).
Defined.


Lemma rejected_frame_witness :
  let o := AudioNodeVAD.processFrame Scenario.muted Session.stuck in
  result o = Err ModelStateError
  /\ emitted o = []
  /\ final o = AudioNodeVAD.set_frameProcessor (H := Session.rejecting)
                 1%nat Session.stuck.
Proof.
  exact (@rejected_frame_calls_nothing
           Session.rejecting Session.stuck Scenario.muted
           0%nat 1%nat ModelStateError eq_refl eq_refl).
Defined.

Lemma buffer_length_witness :
  exists what,
    AudioNodeVAD.onmessage Session.misaligned (Scenario.vad_after 12)
    = mkOutcome (Scenario.vad_after 12) [] (Err (RangeError what)).
Proof.
  refine (proj1 (@buffer_length_decides_frame
                   (Scenario.imports Scenario.script)
                   (Scenario.vad_after 12) Session.misaligned _
                   eq_refl eq_refl) _).
  cbn. discriminate.
Defined.

Lemma default_callbacks_witness :
  debug_lines
    (emitted (AudioNodeVAD.processFrame Scenario.muted
                                        (Scenario.vad_after 12)))
  = ["Detected speech end"].
Proof.
  exact (@default_callbacks_only_log
           (Scenario.imports Scenario.script)
           (Scenario.vad_after 12) Scenario.muted _ _ _
           eq_refl eq_refl eq_refl).
Defined.
